(** * Data-Analyze: the column-inference and enrichment pipeline of dashboard.py

    A shallow embedding of [load_data] (dashboard.py, lines 26-94) and of the
    page script that consumes its result (lines 118-619).

    Modelling conventions.
    - A pandas [DataFrame] is an association list from column names to
      columns, in header order; a column is a list of cells, one per row.
      [pd.read_csv] makes column names unique, so [df[name]] is the first
      (and only) column of that name.
    - int64 and float64 values are idealised as exact rationals kept in
      lowest terms ([Num]); rounding of binary floating point is not modelled.
    - Column names are byte strings.  [str.lower] is modelled on the ASCII
      letters; bytes of a multi-byte character never take part in a match of
      the ASCII patterns the script looks for.
    - [pd.to_datetime] belongs to pandas, not to this repository.  It is a
      parameter of the development ([Converter]); [iso_converter] is a small
      reference instance used to run the pipeline on concrete tables. *)

From Stdlib Require Import String Ascii Bool Arith ZArith QArith Qround Lia List.
Import ListNotations.
Open Scope string_scope.
Open Scope list_scope.

(** ** Exceptions and the error monad *)

Inductive exn : Type :=
| FileNotFoundError
| ParserError                 (* pd.read_csv could not read the file *)
| DateParseError              (* pd.to_datetime rejected a value *)
| KeyError (key : string)
| IndexError
| TypeError
| ValueError
| AttributeError
| NameError (name : string).

Inductive result (A : Type) : Type :=
| Ok (a : A)
| Raise (e : exn).

Arguments Ok {A} a.
Arguments Raise {A} e.

Definition bind {A B} (m : result A) (k : A -> result B) : result B :=
  match m with
  | Ok a => k a
  | Raise e => Raise e
  end.

Declare Scope result_scope.
Delimit Scope result_scope with result.
Notation "x <- m ;; k" := (bind m (fun x => k))
  (at level 61, m at next level, right associativity) : result_scope.
Open Scope result_scope.

Fixpoint mapM {A B} (f : A -> result B) (xs : list A) : result (list B) :=
  match xs with
  | [] => Ok []
  | x :: xs' => y <- f x ;; ys <- mapM f xs' ;; Ok (y :: ys)
  end.

(** ** Strings: [str.lower] and the [in] substring test *)

Definition lower_ascii (c : ascii) : ascii :=
  let n := nat_of_ascii c in
  if (65 <=? n)%nat && (n <=? 90)%nat then ascii_of_nat (n + 32) else c.

Fixpoint lower (s : string) : string :=
  match s with
  | EmptyString => EmptyString
  | String c s' => String (lower_ascii c) (lower s')
  end.

(** [contains pat s] is Python's [pat in s]. *)
Fixpoint contains (pat s : string) : bool :=
  if prefix pat s then true
  else match s with
       | EmptyString => false
       | String _ s' => contains pat s'
       end.

(** [any(x in col.lower() for x in pats)] *)
Definition any_in (pats : list string) (col : string) : bool :=
  existsb (fun x => contains x (lower col)) pats.

(** ** Cells, timestamps and columns *)

Record Timestamp : Type := mkTimestamp {
  ts_year : Z;
  ts_month : Z;
  ts_day : Z;
  ts_nanos : Z                (* nanoseconds since midnight *)
}.

Inductive cell : Type :=
| Num (q : Q)                 (* int64 / float64 *)
| Str (s : string)            (* object *)
| Ts (t : Timestamp)          (* datetime64[ns] *)
| NaN                         (* missing number or object *)
| NaT.                        (* missing timestamp *)

Definition column := list cell.

Definition isna (c : cell) : bool :=
  match c with
  | NaN | NaT => true
  | _ => false
  end.

Definition notna (c : cell) : bool := negb (isna c).

(** Elementwise [+] of pandas.  Numbers add; a missing operand gives a missing
    result (for object columns through the masked fallback); two strings
    concatenate; every other combination is a [TypeError]. *)
Definition cell_add (x y : cell) : result cell :=
  match x, y with
  | Num a, Num b => Ok (Num (Qred (a + b)))
  | NaN, Num _ | NaN, Str _ | NaN, NaN => Ok NaN
  | Num _, NaN | Str _, NaN => Ok NaN
  | Str a, Str b => Ok (Str (a ++ b)%string)
  | _, _ => Raise TypeError
  end.

(** Elementwise [/ d] for a numeric scalar [d]. *)
Definition cell_truediv (d : Q) (x : cell) : result cell :=
  match x with
  | Num a => Ok (Num (Qred (a / d)))
  | NaN => Ok NaN
  | _ => Raise TypeError
  end.

(** [a + b] on two columns of one frame (same index, hence same length). *)
Fixpoint series_add (a b : column) : result column :=
  match a, b with
  | [], [] => Ok []
  | x :: a', y :: b' =>
      z <- cell_add x y ;; zs <- series_add a' b' ;; Ok (z :: zs)
  | _, _ => Raise ValueError
  end.

Definition series_truediv (a : column) (d : Q) : result column :=
  mapM (cell_truediv d) a.

(** The [.dt] accessor: only defined on datetime columns. *)
Definition as_datetime (c : cell) : result (option Timestamp) :=
  match c with
  | Ts t => Ok (Some t)
  | NaT => Ok None
  | _ => Raise AttributeError
  end.

Definition dt (col : column) : result (list (option Timestamp)) :=
  mapM as_datetime col.

Definition date_cell (d : option Timestamp) : cell :=
  match d with
  | Some t => Ts t
  | None => NaT
  end.

Definition num_field (f : Timestamp -> Z) (d : option Timestamp) : cell :=
  match d with
  | Some t => Num (inject_Z (f t))
  | None => NaN
  end.

(** [strftime('%B')]: the full month name. *)
Definition month_name (m : Z) : string :=
  match m with
  | 1 => "January" | 2 => "February" | 3 => "March" | 4 => "April"
  | 5 => "May" | 6 => "June" | 7 => "July" | 8 => "August"
  | 9 => "September" | 10 => "October" | 11 => "November" | 12 => "December"
  | _ => ""
  end%Z.

Definition strftime_B (d : option Timestamp) : cell :=
  match d with
  | Some t => Str (month_name (ts_month t))
  | None => NaN
  end.

(** [Series.map(dict)]: keys that are not in the dict map to NaN. *)
Fixpoint dict_get (d : list (Z * string)) (q : Q) : cell :=
  match d with
  | [] => NaN
  | (k, v) :: d' => if Qeq_bool q (inject_Z k) then Str v else dict_get d' q
  end.

Definition series_map (d : list (Z * string)) (col : column) : column :=
  map (fun c => match c with
                | Num q => dict_get d q
                | _ => NaN
                end) col.

(** ** Data frames *)

Definition DataFrame := list (string * column).

Definition columns (df : DataFrame) : list string := map fst df.

(** [df[k]] *)
Fixpoint getitem (df : DataFrame) (k : string) : result column :=
  match df with
  | [] => Raise (KeyError k)
  | (n, c) :: df' => if String.eqb n k then Ok c else getitem df' k
  end.

(** [df[k] = v]: replaces the column in place, or appends a new last column. *)
Fixpoint setitem (df : DataFrame) (k : string) (v : column) : DataFrame :=
  match df with
  | [] => [(k, v)]
  | (n, c) :: df' =>
      if String.eqb n k then (n, v) :: df' else (n, c) :: setitem df' k v
  end.

(** [df.iloc[:, 0]] *)
Definition iloc_col0 (df : DataFrame) : result column :=
  match df with
  | [] => Raise IndexError
  | (_, c) :: _ => Ok c
  end.

(** Boolean-mask row selection. *)
Fixpoint select {A} (mask : list bool) (xs : list A) : list A :=
  match mask, xs with
  | b :: mask', x :: xs' => if b then x :: select mask' xs' else select mask' xs'
  | _, _ => []
  end.

Definition take_rows (mask : list bool) (df : DataFrame) : DataFrame :=
  map (fun nc => (fst nc, select mask (snd nc))) df.

(** [df.dropna(subset=[k])] *)
Definition dropna (df : DataFrame) (k : string) : result DataFrame :=
  c <- getitem df k ;; Ok (take_rows (map notna c) df).

Definition has_column (df : DataFrame) (k : string) : bool :=
  existsb (String.eqb k) (columns df).

(** Number of rows of a frame whose columns all have the same length. *)
Definition nrows (df : DataFrame) : nat :=
  match df with
  | [] => 0
  | (_, c) :: _ => length c
  end.

Definition rectangular (n : nat) (df : DataFrame) : Prop :=
  Forall (fun nc => length (snd nc) = n) df.

(** ** The date converter of pandas

    [pd.to_datetime(series)] with its default [errors='raise']: either every
    value is converted (a missing value to NaT, here [None]) or the call
    raises.  The only law the development relies on is that the converted
    series has one value per row. *)

Class Converter : Type := {
  to_datetime : column -> result (list (option Timestamp));
  to_datetime_length :
    forall xs ds, to_datetime xs = Ok ds -> length ds = length xs
}.

(** ** Column-name predicates of [load_data] *)

Definition is_date_name (col : string) : bool :=
  contains "date" (lower col) || contains "time" (lower col).

Definition temp_patterns : list string := ["temp"; "t_"; "tx"; "tn"; "tg"].
Definition precip_patterns : list string :=
  ["precip"; "rain"; "rr"; "pluvio"; "pluie"].

Definition is_temp_name (col : string) : bool := any_in temp_patterns col.
Definition is_precip_name (col : string) : bool := any_in precip_patterns col.

Definition is_mean_name (col : string) : bool :=
  contains "mean" (lower col) || contains "avg" (lower col)
  || contains "tg" (lower col) || contains "moy" (lower col).

Definition is_max_name (col : string) : bool :=
  contains "max" (lower col) || contains "tx" (lower col).

Definition is_min_name (col : string) : bool :=
  contains "min" (lower col) || contains "tn" (lower col).

Definition season_dict : list (Z * string) :=
  [ (12, "Winter"); (1, "Winter"); (2, "Winter");
    (3, "Spring"); (4, "Spring"); (5, "Spring");
    (6, "Summer"); (7, "Summer"); (8, "Summer");
    (9, "Fall"); (10, "Fall"); (11, "Fall") ]%Z.

(** The names [load_data] may assign to. *)
Definition derived_names : list string :=
  ["Date"; "Year"; "Month"; "Day"; "Month_Name"; "Season";
   "Temp_Mean"; "Temp_Max"; "Temp_Min"; "Precipitation"].

(** ** [load_data] *)

Section Pipeline.

Context {conv : Converter}.

(** Lines 33-38: the series handed to [pd.to_datetime]. *)
Definition date_source (df : DataFrame) : result column :=
  let date_cols := filter is_date_name (columns df) in
  match date_cols with
  | c :: _ => getitem df c
  | [] => iloc_col0 df
  end.

Definition add_date (df : DataFrame) : result DataFrame :=
  src <- date_source df ;;
  d <- to_datetime src ;;
  Ok (setitem df "Date" (map date_cell d)).

(** Lines 41-50. *)
Definition add_calendar (df : DataFrame) : result DataFrame :=
  c <- getitem df "Date" ;; d <- dt c ;;
  let df := setitem df "Year" (map (num_field ts_year) d) in
  c <- getitem df "Date" ;; d <- dt c ;;
  let df := setitem df "Month" (map (num_field ts_month) d) in
  c <- getitem df "Date" ;; d <- dt c ;;
  let df := setitem df "Day" (map (num_field ts_day) d) in
  c <- getitem df "Date" ;; d <- dt c ;;
  let df := setitem df "Month_Name" (map strftime_B d) in
  m <- getitem df "Month" ;;
  Ok (setitem df "Season" (series_map season_dict m)).

(** Lines 61-68. *)
Definition add_temp_mean (temp_cols : list string) (df : DataFrame)
  : result DataFrame :=
  let temp_mean_cols := filter is_mean_name temp_cols in
  match temp_mean_cols with
  | m :: _ => c <- getitem df m ;; Ok (setitem df "Temp_Mean" c)
  | [] =>
      match temp_cols with
      | t0 :: t1 :: _ =>
          a <- getitem df t0 ;;
          b <- getitem df t1 ;;
          s <- series_add a b ;;
          avg <- series_truediv s 2 ;;
          Ok (setitem df "Temp_Mean" avg)
      | [t0] => c <- getitem df t0 ;; Ok (setitem df "Temp_Mean" c)
      | [] => Raise IndexError
      end
  end.

(** Lines 71-78 and 80-81: [if cols: df[target] = df[cols[0]]]. *)
Definition copy_first (cols : list string) (target : string) (df : DataFrame)
  : result DataFrame :=
  match cols with
  | c :: _ => v <- getitem df c ;; Ok (setitem df target v)
  | [] => Ok df
  end.

(** Lines 59-78. *)
Definition add_temperature (temp_cols : list string) (df : DataFrame)
  : result DataFrame :=
  match temp_cols with
  | [] => Ok df
  | _ :: _ =>
      df <- add_temp_mean temp_cols df ;;
      df <- copy_first (filter is_max_name temp_cols) "Temp_Max" df ;;
      copy_first (filter is_min_name temp_cols) "Temp_Min" df
  end.

(** The body of the [try] block, after [pd.read_csv] (lines 33-86). *)
Definition enrich (df : DataFrame) : result DataFrame :=
  df <- add_date df ;;
  df <- add_calendar df ;;
  let temp_cols := filter is_temp_name (columns df) in
  let precip_cols := filter is_precip_name (columns df) in
  df <- add_temperature temp_cols df ;;
  df <- copy_first precip_cols "Precipitation" df ;;
  dropna df "Date".

(** What the two [except] clauses do: [st.error(...)] then [st.stop()]. *)
Inductive halt : Type :=
| file_not_found
| load_error (e : exn).

Inductive outcome : Type :=
| Loaded (df : DataFrame)
| Stopped (h : halt).

(** Lines 88-94: which of the two [except] clauses catches [e]. *)
Definition except (e : exn) : halt :=
  match e with
  | FileNotFoundError => file_not_found
  | _ => load_error e
  end.

(** [load_data()], given what [pd.read_csv] did on the input file. *)
Definition load_data (csv : result DataFrame) : outcome :=
  match df <- csv ;; enrich df with
  | Ok df => Loaded df
  | Raise e => Stopped (except e)
  end.

(** [@st.cache_data]: the value returned by a completed call is stored and
    served to later calls; a call that stops is not stored.  [runs] counts
    the executions of the function body. *)
Record cache : Type := mkCache {
  stored : option DataFrame;
  runs : nat
}.

Definition empty_cache : cache := mkCache None 0.

Definition cached_load_data (csv : result DataFrame) (c : cache)
  : outcome * cache :=
  match stored c with
  | Some df => (Loaded df, c)
  | None =>
      match load_data csv with
      | Loaded df => (Loaded df, mkCache (Some df) (S (runs c)))
      | Stopped h => (Stopped h, mkCache None (S (runs c)))
      end
  end.

End Pipeline.

(** ** The page script (lines 105-619)

    Every [df[k]] of the script, also inside [groupby], [pivot_table] and
    boolean indexing, is a read that raises [KeyError] when the column is
    absent, and is recorded in [reads].  A figure is represented by the title
    under which it is shown and a paragraph by its heading; a title or label
    that interpolates the selected year is cut before the year.  The numbers
    displayed are not modelled.
    Streamlit runs the script in a fresh namespace, so a global is bound only
    if the run has assigned it: [bound] lists the assigned names. *)

Module Pages.

Inductive event : Type :=
| markdown (text : string)
| plotly_chart (title : string)
| metric (label : string)
| selectbox (label : string)
| radio (label : string).

Record run_state : Type := mkState {
  frame : DataFrame;          (* the global [df] *)
  bound : list string;        (* globals assigned so far *)
  reads : list string;        (* columns read so far, latest first *)
  shown : list event          (* elements shown so far, latest first *)
}.

Definition script (A : Type) : Type := run_state -> run_state * result A.

Definition ret {A} (a : A) : script A := fun s => (s, Ok a).

Definition sbind {A B} (m : script A) (k : A -> script B) : script B :=
  fun s =>
    match m s with
    | (s', Ok a) => k a s'
    | (s', Raise e) => (s', Raise e)
    end.

Declare Scope script_scope.
Delimit Scope script_scope with script.
Bind Scope script_scope with script.
Notation "x <- m ;; k" := (sbind m (fun x => k))
  (at level 61, m at next level, right associativity) : script_scope.
Notation "m ;; k" := (sbind m (fun _ => k))
  (at level 61, right associativity) : script_scope.
Local Open Scope script_scope.

Definition show (e : event) : script unit :=
  fun s => (mkState (frame s) (bound s) (reads s) (e :: shown s), Ok tt).

(** [df[k]] *)
Definition read (k : string) : script column :=
  fun s => (mkState (frame s) (bound s) (k :: reads s) (shown s),
            getitem (frame s) k).

(** [df[k] = v] *)
Definition write (k : string) (v : column) : script unit :=
  fun s => (mkState (setitem (frame s) k v) (bound s) (reads s) (shown s),
            Ok tt).

(** [k in df.columns] *)
Definition in_columns (k : string) : script bool :=
  fun s => (s, Ok (has_column (frame s) k)).

(** [x = ...] at module level *)
Definition assign (x : string) : script unit :=
  fun s => (mkState (frame s) (x :: bound s) (reads s) (shown s), Ok tt).

(** evaluation of the global [x] *)
Definition name (x : string) : script unit :=
  fun s => (s, if existsb (String.eqb x) (bound s) then Ok tt
               else Raise (NameError x)).

Definition lift {A} (r : result A) : script A := fun s => (s, r).

Definition when (b : bool) (body : script unit) : script unit :=
  if b then body else ret tt.

Fixpoint for_each {A} (xs : list A) (body : A -> script unit) : script unit :=
  match xs with
  | [] => ret tt
  | x :: xs' => body x ;; for_each xs' body
  end.

(** [lambda x: '1989-2004' if x <= 2004 else '2005-2024'] *)
Definition period_of (c : cell) : result cell :=
  match c with
  | Num y => Ok (Str (if Qle_bool y 2004 then "1989-2004" else "2005-2024"))
  | NaN => Ok (Str "2005-2024")
  | _ => Raise TypeError
  end.

(** [(x // 10) * 10] *)
Definition decade_of (c : cell) : result cell :=
  match c with
  | Num y => Ok (Num (inject_Z (Qfloor (y / 10) * 10)))
  | NaN => Ok NaN
  | _ => Raise TypeError
  end.

Definition month_order : list string :=
  ["January"; "February"; "March"; "April"; "May"; "June";
   "July"; "August"; "September"; "October"; "November"; "December"].

(** The user's choices in the widgets of a run: each is one of the
    options the widget offers. *)
Inductive page_option : Type :=
| the_problem_page | analysis_page | insights_page | conclusion_page.

Definition page_label (p : page_option) : string :=
  match p with
  | the_problem_page => "1. THE PROBLEM"
  | analysis_page => "2. ANALYSIS"
  | insights_page => "3. INTERACTIVE INSIGHTS"
  | conclusion_page => "4. CONCLUSION"
  end.

Inductive var_option : Type := Temperature | Precipitation.

Definition var_label (v : var_option) : string :=
  match v with
  | Temperature => "Temperature"
  | Precipitation => "Precipitation"
  end.

Inductive season_option : Type := Winter | Spring | Summer | Fall.

Definition season_label (o : season_option) : string :=
  match o with
  | Winter => "Winter"
  | Spring => "Spring"
  | Summer => "Summer"
  | Fall => "Fall"
  end.

Record widgets : Type := mkWidgets {
  page_choice : page_option;
  var_choice : var_option;
  season_choice : season_option
}.

Definition page (w : widgets) : string := page_label (page_choice w).
Definition selected_var (w : widgets) : string := var_label (var_choice w).
Definition season (w : widgets) : string := season_label (season_choice w).

(** Lines 118-126. *)
Definition the_problem : script unit :=
  show (markdown "# 1. THE PROBLEM: Climate Change Impact on Agriculture</p>") ;;
  show (markdown "<strong> Context:</strong>").

(** Lines 128-341.  [temp_change] is the only global of the script that is
    assigned inside a branch and evaluated outside of it. *)
Definition analysis : script unit :=
  show (markdown "# 2. ANALYSIS: Long-term Climate Trends</p>") ;;
  (* GRAPHIQUE 1 *)
  b <- in_columns "Temp_Mean" ;;
  when b (
    show (markdown "## Annual Average Temperature Evolution (1989-2024)") ;;
    _ <- read "Year" ;;
    _ <- read "Temp_Mean" ;;
    show (plotly_chart "Temperature Warming Trend Over 35 Years") ;;
    assign "temp_change") ;;
  name "temp_change" ;;
  show (markdown "### **Temperature Trend Analysis (1989-2024):**") ;;
  (* GRAPHIQUE 2 *)
  b <- in_columns "Precipitation" ;;
  when b (
    show (markdown "## Annual Precipitation Evolution") ;;
    _ <- read "Year" ;;
    _ <- read "Precipitation" ;;
    show (plotly_chart "Precipitation Pattern Changes")) ;;
  show (markdown "### **Precipitation Pattern Analysis:**  ##") ;;
  (* GRAPHIQUE 3 *)
  b <- in_columns "Temp_Mean" ;;
  when b (
    show (markdown "## Temperature Distribution Comparison (1989-2004 vs 2005-2024)") ;;
    y <- read "Year" ;;
    p <- lift (mapM period_of y) ;;
    write "Period" p ;;
    for_each ["1989-2004"; "2005-2024"] (fun _ =>
      _ <- read "Period" ;;
      _ <- read "Temp_Mean" ;;
      ret tt) ;;
    show (plotly_chart "Temperature Distribution Shift Between Two Periods") ;;
    _ <- read "Period" ;;
    _ <- read "Temp_Mean" ;;
    show (metric "1989-2004 Avg") ;;
    _ <- read "Period" ;;
    _ <- read "Temp_Mean" ;;
    show (metric "2005-2024 Avg")) ;;
  show (markdown "### **Temperature Distribution Impact:**") ;;
  (* GRAPHIQUE 4 *)
  b <- in_columns "Temp_Mean" ;;
  when b (
    show (markdown "## Monthly Temperature Heatmap") ;;
    _ <- read "Temp_Mean" ;;
    _ <- read "Month" ;;
    _ <- read "Year" ;;
    show (plotly_chart "Temperature Calendar: Seasonal Patterns Over Years")) ;;
  show (markdown "### **Seasonal Temperature Evolution:**") ;;
  (* GRAPHIQUE 5 *)
  b <- in_columns "Precipitation" ;;
  when b (
    show (markdown "## Monthly Precipitation Distribution") ;;
    for_each month_order (fun _ =>
      _ <- read "Month_Name" ;;
      _ <- read "Precipitation" ;;
      ret tt) ;;
    show (plotly_chart "Seasonal Precipitation Variability")) ;;
  show (markdown "### **Precipitation Distribution Analysis:**").

(** Lines 351-595. *)
Definition insights (w : widgets) : script unit :=
  show (markdown "# 3. INTERACTIVE INSIGHTS: Deep Dive Analysis</p>") ;;
  (* GRAPHIQUE 7 *)
  show (markdown "##  Annual Climate Profile ") ;;
  _ <- read "Year" ;;
  show (selectbox "Select a year to explore:") ;;
  _ <- read "Year" ;;
  b <- in_columns "Temp_Mean" ;;
  when b (
    _ <- read "Temp_Mean" ;;
    _ <- read "Temp_Mean" ;;
    show (metric "Avg Temp")) ;;
  b <- in_columns "Precipitation" ;;
  when b (
    _ <- read "Precipitation" ;;
    _ <- read "Year" ;;
    _ <- read "Precipitation" ;;
    show (metric "Total Precip")) ;;
  show (markdown "### **Annual Climate Profile Impact:**") ;;
  b <- in_columns "Temp_Mean" ;;
  when b (
    _ <- read "Date" ;;
    _ <- read "Temp_Mean" ;;
    _ <- read "Temp_Mean" ;;
    _ <- read "Date" ;;
    show (plotly_chart "Daily Temperature Profile")) ;;
  (* GRAPHIQUE 8 *)
  show (markdown "## Decadal Comparison ") ;;
  b1 <- in_columns "Temp_Mean" ;;
  b2 <- (if b1 then in_columns "Precipitation" else ret false) ;;
  when b2 (
    show (radio "Select variable to compare:") ;;
    y <- read "Year" ;;
    d <- lift (mapM decade_of y) ;;
    write "Decade" d ;;
    let plot_var :=
      if String.eqb (selected_var w) "Temperature" then "Temp_Mean"
      else "Precipitation" in
    let title :=
      if String.eqb (selected_var w) "Temperature"
      then "Monthly Temperature by Decade"
      else "Monthly Precipitation by Decade" in
    _ <- read "Decade" ;;
    _ <- read "Month" ;;
    _ <- read plot_var ;;
    show (plotly_chart title)) ;;
  show (markdown "### **Decadal Climate Evolution:**") ;;
  (* GRAPHIQUE 9 *)
  show (markdown "## Seasonal Analysis ") ;;
  show (selectbox "Select a season:") ;;
  _ <- read "Season" ;;
  b <- in_columns "Temp_Mean" ;;
  when b (
    _ <- read "Year" ;;
    _ <- read "Temp_Mean" ;;
    show (plotly_chart (season w ++ " Temperature Trend")%string)) ;;
  b <- in_columns "Precipitation" ;;
  when b (
    _ <- read "Year" ;;
    _ <- read "Precipitation" ;;
    show (plotly_chart (season w ++ " Precipitation Pattern")%string)) ;;
  show (markdown "### **Seasonal Pattern Changes:**").

(** Lines 597-619. *)
Definition conclusion : script unit :=
  show (markdown "# 4. Conclusion</p>") ;;
  show (markdown "## Implications & Agricultural Adaptation Strategies").

(** Lines 118, 128, 351 and 597: the dispatch on the selected page. *)
Definition dashboard (w : widgets) : script unit :=
  (if String.eqb (page w) "1. THE PROBLEM" then the_problem
   else if String.eqb (page w) "2. ANALYSIS" then analysis
   else ret tt) ;;
  when (String.eqb (page w) "3. INTERACTIVE INSIGHTS") (insights w) ;;
  when (String.eqb (page w) "4. CONCLUSION") conclusion.

(** A run of the script on the table returned by [load_data]. *)
Definition run (df : DataFrame) (w : widgets) : run_state * result unit :=
  dashboard w (mkState df [] [] []).


End Pages.

(** ** A reference converter: ISO calendar dates

    [iso_to_datetime] converts the strings [YYYY-MM-DD] that denote a date of
    the proleptic Gregorian calendar, keeps missing values missing, and raises
    on every other value, as [pd.to_datetime] does on a value that is not a
    date in the format of the column.  Numbers, which pandas reads as offsets
    from the epoch, are outside this reference instance and rejected. *)

Definition digit (c : ascii) : option Z :=
  let n := Z.of_nat (nat_of_ascii c) in
  if (48 <=? n)%Z && (n <=? 57)%Z then Some (n - 48)%Z else None.

Fixpoint number (cs : list ascii) (acc : Z) : option Z :=
  match cs with
  | [] => Some acc
  | c :: cs' =>
      match digit c with
      | Some d => number cs' (10 * acc + d)%Z
      | None => None
      end
  end.

Definition is_leap (y : Z) : bool :=
  ((y mod 4 =? 0) && (negb (y mod 100 =? 0) || (y mod 400 =? 0)))%Z.

Definition days_in_month (y m : Z) : Z :=
  match m with
  | 1 | 3 | 5 | 7 | 8 | 10 | 12 => 31
  | 4 | 6 | 9 | 11 => 30
  | 2 => if is_leap y then 29 else 28
  | _ => 0
  end%Z.

Definition parse_iso (s : string) : option Timestamp :=
  match list_ascii_of_string s with
  | [y1; y2; y3; y4; s1; m1; m2; s2; d1; d2] =>
      if Ascii.eqb s1 "-" && Ascii.eqb s2 "-" then
        match number [y1; y2; y3; y4] 0, number [m1; m2] 0, number [d1; d2] 0 with
        | Some y, Some m, Some d =>
            if ((1 <=? y) && (1 <=? d) && (d <=? days_in_month y m))%Z
            then Some (mkTimestamp y m d 0)
            else None
        | _, _, _ => None
        end
      else None
  | _ => None
  end.

Definition iso_scalar (c : cell) : result (option Timestamp) :=
  match c with
  | NaN | NaT => Ok None
  | Ts t => Ok (Some t)
  | Str s =>
      match parse_iso s with
      | Some t => Ok (Some t)
      | None => Raise DateParseError
      end
  | Num _ => Raise DateParseError
  end.

Definition iso_to_datetime (col : column) : result (list (option Timestamp)) :=
  mapM iso_scalar col.

(** ** Vocabulary of the statements *)

(** The column lists [load_data] computes, as functions of the raw header. *)
Definition date_cols (raw : DataFrame) : list string :=
  filter is_date_name (columns raw).
Definition temp_cols (raw : DataFrame) : list string :=
  filter is_temp_name (columns raw).
Definition precip_cols (raw : DataFrame) : list string :=
  filter is_precip_name (columns raw).

(** The rows that [dropna(subset=['Date'])] keeps, given the converted dates. *)
Definition kept (d : list (option Timestamp)) : list bool :=
  map (fun x => match x with Some _ => true | None => false end) d.

(** The position in the output of input row [i], when it is kept: the number
    of kept rows before it. *)
Definition rank (mask : list bool) (i : nat) : nat :=
  length (filter (fun b => b) (firstn i mask)).

Definition kept_count (mask : list bool) : nat :=
  length (filter (fun b => b) mask).

(** The average of two values of one row: the mean of two numbers, missing
    as soon as one of the two is. *)
Inductive average_of : cell -> cell -> cell -> Prop :=
| average_num (p q r : Q) : r == (p + q) / 2 -> average_of (Num p) (Num q) (Num r)
| average_na_l (y : cell) : average_of NaN y NaN
| average_na_r (x : cell) : average_of x NaN NaN.

(** Row by row over three columns of the same length. *)
Inductive rowwise (R : cell -> cell -> cell -> Prop)
  : column -> column -> column -> Prop :=
| rowwise_nil : rowwise R [] [] []
| rowwise_cons x y z xs ys zs :
    R x y z -> rowwise R xs ys zs -> rowwise R (x :: xs) (y :: ys) (z :: zs).

Definition nonneg_number (c : cell) : Prop :=
  match c with
  | Num q => 0 <= q
  | _ => False
  end.

(** [r] maps [f] over a successful result. *)
Definition fmap {A B} (f : A -> B) (r : result A) : result B :=
  match r with
  | Ok a => Ok (f a)
  | Raise e => Raise e
  end.

(** ** Tables used as examples *)

(** The scenario of the specification and the table it is to give. *)
Definition scenario_table : DataFrame :=
  [ ("DATE", [Str "2020-01-01"]); ("TX", [Num 10]); ("TN", [Num 0]);
    ("RR", [Num 5]) ].

Definition scenario_result : DataFrame :=
  [ ("DATE", [Str "2020-01-01"]); ("TX", [Num 10]); ("TN", [Num 0]);
    ("RR", [Num 5]);
    ("Date", [Ts (mkTimestamp 2020 1 1 0)]);
    ("Year", [Num 2020]); ("Month", [Num 1]); ("Day", [Num 1]);
    ("Month_Name", [Str "January"]); ("Season", [Str "Winter"]);
    ("Temp_Mean", [Num 5]); ("Temp_Max", [Num 10]); ("Temp_Min", [Num 0]);
    ("Precipitation", [Num 5]) ].

(** A station file with minimum and maximum temperatures only; the second
    row has no date and the third no maximum. *)
Definition tn_tx_table : DataFrame :=
  [ ("DATE", [Str "2021-03-01"; NaN; Str "2021-03-03"]);
    ("TN", [Num 2; Num 4; Num 1]);
    ("TX", [Num 11; Num 12; NaN]) ].

(** A header with a column "Time" before the column "Date". *)
Definition time_date_table : DataFrame :=
  [ ("Time", [Str "2020-01-01"]); ("Date", [Str "2021-02-02"]) ].

(** A header in which "Date" is not the first column and no earlier name
    contains "date" or "time". *)
Definition tx_date_table : DataFrame :=
  [ ("TX", [Num 21; Num 23]); ("Date", [Str "2020-05-05"; Str "2020-05-06"]) ].

(** Two days of observations; the date of the second is not a date. *)
Definition bad_date_table : DataFrame :=
  [ ("DATE", [Str "2020-01-01"; Str "not a date"; Str "2020-01-03"]);
    ("TX", [Num 10; Num 11; Num 12]) ].

(** A table of dated rainfall only. *)
Definition rain_table : DataFrame :=
  [ ("DATE", [Str "2019-11-30"; Str "2019-12-01"]); ("RR", [Num 0; Num 7]) ].

(** A day with a negative rainfall reading. *)
Definition negative_rain_table : DataFrame :=
  [ ("DATE", [Str "2020-01-01"]); ("RR", [Num (-3)]) ].

(** A raw table that already has columns named Date and Year, and a column
    of remarks. *)
Definition dated_table : DataFrame :=
  [ ("Date", [Str "2022-06-30"; NaN; Str "2022-07-01"]);
    ("Year", [Str "a"; Str "b"; Str "c"]);
    ("Remark", [Str "dry"; Str "lost"; NaN]) ].

(** ** Intermediate frames of [load_data] *)

Definition calendar_names : list string :=
  ["Date"; "Year"; "Month"; "Day"; "Month_Name"; "Season"].

Definition temperature_names : list string :=
  ["Temp_Mean"; "Temp_Max"; "Temp_Min"].

(** The frame after lines 41-50, given the converted dates. *)
Definition with_calendar (df : DataFrame) (d : list (option Timestamp))
  : DataFrame :=
  let df := setitem df "Year" (map (num_field ts_year) d) in
  let df := setitem df "Month" (map (num_field ts_month) d) in
  let df := setitem df "Day" (map (num_field ts_day) d) in
  let df := setitem df "Month_Name" (map strftime_B d) in
  setitem df "Season" (series_map season_dict (map (num_field ts_month) d)).

(** The frame after the date and calendar columns are assigned. *)
Definition calendar (raw : DataFrame) (d : list (option Timestamp))
  : DataFrame :=
  with_calendar (setitem raw "Date" (map date_cell d)) d.

(** [assigns names df df']: [df'] is [df] after assignments to columns among
    [names]; every other column is as it was, and new columns come last. *)
Definition assigns (names : list string) (df df' : DataFrame) : Prop :=
  (forall k, ~ In k names -> getitem df' k = getitem df k) /\
  (exists added, columns df' = columns df ++ added /\ incl added names).


(** ** Vocabulary of the further properties *)

(** The timestamps of the rows that are kept, in order. *)
Fixpoint valid_dates (d : list (option Timestamp)) : list Timestamp :=
  match d with
  | [] => []
  | Some t :: d' => t :: valid_dates d'
  | None :: d' => valid_dates d'
  end.

(** The season of a month of the year, by ranges: December to February,
    March to May, June to August, September to November. *)
Definition season_of_month (m : Z) : string :=
  if ((m =? 12) || (m <=? 2))%Z then "Winter"
  else if (m <=? 5)%Z then "Spring"
  else if (m <=? 8)%Z then "Summer"
  else "Fall".

Definition number_or_missing (c : cell) : Prop :=
  match c with
  | Num _ | NaN => True
  | _ => False
  end.


(** The average of line 66 can be computed: when no temperature-like name
    is mean-like and there are two temperature-like columns, the first two
    can be added and the sum halved. *)
Definition mean_computable (raw : DataFrame) : Prop :=
  forall a b rest,
    filter is_mean_name (temp_cols raw) = [] ->
    temp_cols raw = a :: b :: rest ->
    exists ca cb s avg,
      getitem raw a = Ok ca /\ getitem raw b = Ok cb /\
      series_add ca cb = Ok s /\ series_truediv s 2 = Ok avg.


(** A day whose temperatures were typed in as text. *)
Definition text_table : DataFrame :=
  [ ("DATE", [Str "2020-01-01"]); ("TN", [Str "low"]); ("TX", [Str "high"]) ].


Definition is_number (c : cell) : Prop :=
  match c with
  | Num _ => True
  | _ => False
  end.

(** The columns the pages assign to. *)
Definition page_columns : list string := ["Period"; "Decade"].


(** The outcomes of the successive calls of a session; [files] lists what
    [pd.read_csv] would do with the input file at the time of each call. *)
Fixpoint session {conv : Converter} (files : list (result DataFrame))
         (c : cache) : list outcome :=
  match files with
  | [] => []
  | csv :: rest =>
      fst (cached_load_data csv c) :: session rest (snd (cached_load_data csv c))
  end.



(** * Properties *)

(** ** The error monad and lists *)

Lemma bind_Ok_inv {A B} (m : result A) (k : A -> result B) (b : B) :
  (x <- m ;; k x) = Ok b -> exists a, m = Ok a /\ k a = Ok b.
Proof.
  destruct m as [a | e]; simpl; intros H.
  - exists a; split; [reflexivity | exact H].
  - discriminate H.
Qed.

Lemma Ok_inj {A} (a b : A) : Ok a = Ok b -> a = b.
Proof. intros H. now injection H. Qed.

Ltac inv_bind H :=
  let a := fresh "v" in
  let Ha := fresh "Hv" in
  apply bind_Ok_inv in H; destruct H as (a & Ha & H).

Lemma mapM_length {A B} (f : A -> result B) (xs : list A) :
  forall ys, mapM f xs = Ok ys -> length ys = length xs.
Proof.
  induction xs as [| x xs IH]; simpl; intros ys H.
  - injection H as <-. reflexivity.
  - inv_bind H. inv_bind H. injection H as <-. simpl. f_equal. now apply IH.
Qed.

Lemma iso_to_datetime_length (xs : column) (ds : list (option Timestamp)) :
  iso_to_datetime xs = Ok ds -> length ds = length xs.
Proof. apply mapM_length. Qed.

#[export] Instance iso_converter : Converter :=
  {| to_datetime := iso_to_datetime;
     to_datetime_length := iso_to_datetime_length |}.

(** ** Data frames: reading, assigning, selecting rows *)

Lemma getitem_setitem_eq (df : DataFrame) (k : string) (v : column) :
  getitem (setitem df k v) k = Ok v.
Proof.
  induction df as [| [n c] df IH]; simpl.
  - now rewrite String.eqb_refl.
  - destruct (String.eqb n k) eqn:E; simpl; rewrite E; [reflexivity | exact IH].
Qed.

Lemma getitem_setitem_ne (df : DataFrame) (k k' : string) (v : column) :
  k <> k' -> getitem (setitem df k v) k' = getitem df k'.
Proof.
  intros Hne. induction df as [| [n c] df IH]; simpl.
  - apply String.eqb_neq in Hne. now rewrite Hne.
  - destruct (String.eqb n k) eqn:E; simpl.
    + apply String.eqb_eq in E; subst n.
      apply String.eqb_neq in Hne. now rewrite Hne.
    + now rewrite IH.
Qed.

Lemma has_column_In (df : DataFrame) (k : string) :
  has_column df k = true <-> In k (columns df).
Proof.
  unfold has_column. rewrite existsb_exists. split.
  - intros (x & Hx & E). apply String.eqb_eq in E. now subst.
  - intros H. exists k. split; [exact H | apply String.eqb_refl].
Qed.

Lemma getitem_Ok_In (df : DataFrame) (k : string) (c : column) :
  getitem df k = Ok c -> In k (columns df).
Proof.
  induction df as [| [n c'] df IH]; simpl; [discriminate |].
  destruct (String.eqb n k) eqn:E.
  - apply String.eqb_eq in E. now left.
  - intros H. right. now apply IH.
Qed.

Lemma columns_setitem (df : DataFrame) (k : string) (v : column) :
  columns (setitem df k v) =
  if has_column df k then columns df else columns df ++ [k].
Proof.
  unfold has_column, columns.
  induction df as [| [n c] df IH]; simpl; [reflexivity |].
  rewrite (String.eqb_sym k n).
  destruct (String.eqb n k) eqn:E; simpl; [reflexivity |].
  rewrite IH. now destruct (existsb (String.eqb k) (map fst df)).
Qed.

Lemma columns_setitem_app (df : DataFrame) (k : string) (v : column) :
  exists added,
    columns (setitem df k v) = columns df ++ added /\ incl added [k].
Proof.
  rewrite columns_setitem. destruct (has_column df k).
  - exists []. split; [now rewrite app_nil_r | intros x []].
  - exists [k]. split; [reflexivity | apply incl_refl].
Qed.

Lemma columns_take_rows (mask : list bool) (df : DataFrame) :
  columns (take_rows mask df) = columns df.
Proof.
  unfold columns, take_rows. rewrite map_map. reflexivity.
Qed.

Lemma getitem_take_rows (mask : list bool) (df : DataFrame) (k : string) :
  getitem (take_rows mask df) k = fmap (select mask) (getitem df k).
Proof.
  induction df as [| [n c] df IH]; simpl; [reflexivity |].
  destruct (String.eqb n k); [reflexivity | exact IH].
Qed.

Lemma dt_date_cells (d : list (option Timestamp)) :
  dt (map date_cell d) = Ok d.
Proof.
  unfold dt. induction d as [| [t |] d IH]; simpl; [reflexivity | |];
    rewrite IH; reflexivity.
Qed.

Lemma notna_date_cells (d : list (option Timestamp)) :
  map notna (map date_cell d) = kept d.
Proof.
  unfold kept. rewrite map_map. apply map_ext. now intros [t |].
Qed.

(** ** Row selection *)

Lemma length_kept (d : list (option Timestamp)) : length (kept d) = length d.
Proof. apply length_map. Qed.

Lemma length_select {A} (mask : list bool) (xs : list A) :
  length mask = length xs -> length (select mask xs) = kept_count mask.
Proof.
  unfold kept_count. revert xs.
  induction mask as [| b mask IH]; intros [| x xs]; simpl; try discriminate;
    [reflexivity |].
  intros H. injection H as H. destruct b; simpl; now rewrite IH.
Qed.

Lemma nth_error_select {A} (mask : list bool) (xs : list A) (i : nat) :
  nth_error mask i = Some true ->
  nth_error (select mask xs) (rank mask i) = nth_error xs i.
Proof.
  unfold rank. revert xs i.
  induction mask as [| b mask IH]; intros xs i H.
  - destruct i; discriminate H.
  - destruct i as [| i]; simpl in H.
    + injection H as ->. destruct xs; reflexivity.
    + destruct xs as [| x xs]; simpl.
      * destruct (length _); reflexivity.
      * destruct b; simpl; now apply IH.
Qed.

Lemma rank_lt (mask : list bool) (i j : nat) :
  (i < j)%nat -> nth_error mask i = Some true -> (rank mask i < rank mask j)%nat.
Proof.
  unfold rank. revert i j.
  induction mask as [| b mask IH]; intros i j Hij H.
  - destruct i; discriminate H.
  - destruct j as [| j]; [lia |]. destruct i as [| i]; simpl in *.
    + injection H as ->. simpl. lia.
    + assert (Hlt : (i < j)%nat) by lia.
      specialize (IH i j Hlt H). destruct b; simpl; lia.
Qed.

Lemma rank_bound (mask : list bool) (i : nat) :
  nth_error mask i = Some true -> (rank mask i < kept_count mask)%nat.
Proof.
  unfold rank, kept_count. revert i.
  induction mask as [| b mask IH]; intros i H.
  - destruct i; discriminate H.
  - destruct i as [| i]; simpl in *.
    + injection H as ->. simpl. lia.
    + specialize (IH i H). destruct b; simpl; lia.
Qed.

Lemma Forall_select {A} (P : A -> Prop) (mask : list bool) (xs : list A) :
  Forall P xs -> Forall P (select mask xs).
Proof.
  intros H. revert mask. induction H as [| x xs Hx H IH]; intros [| b mask];
    simpl; try constructor.
  destruct b; [constructor; [exact Hx | apply IH] | apply IH].
Qed.


(** ** Assignments leave the other columns alone *)

Lemma assigns_refl (names : list string) (df : DataFrame) : assigns names df df.
Proof.
  split; [reflexivity |].
  exists []. split; [now rewrite app_nil_r | intros x []].
Qed.

Lemma assigns_trans (names : list string) (df1 df2 df3 : DataFrame) :
  assigns names df1 df2 -> assigns names df2 df3 -> assigns names df1 df3.
Proof.
  intros [G1 (a1 & C1 & I1)] [G2 (a2 & C2 & I2)]. split.
  - intros k Hk. now rewrite G2, G1.
  - exists (a1 ++ a2). split.
    + now rewrite C2, C1, app_assoc.
    + now apply incl_app.
Qed.

Lemma assigns_incl (names names' : list string) (df df' : DataFrame) :
  incl names names' -> assigns names df df' -> assigns names' df df'.
Proof.
  intros Hi [G (a & C & I)]. split.
  - intros k Hk. apply G. intros H. apply Hk, Hi, H.
  - exists a. split; [exact C | now apply incl_tran with names].
Qed.

Lemma assigns_setitem (names : list string) (df : DataFrame) (k : string)
      (v : column) :
  In k names -> assigns names df (setitem df k v).
Proof.
  intros Hk. split.
  - intros k' Hk'. apply getitem_setitem_ne. intros ->. contradiction.
  - destruct (columns_setitem_app df k v) as (a & C & I).
    exists a. split; [exact C |].
    intros x Hx. apply I in Hx. destruct Hx as [<- | []]. exact Hk.
Qed.

Lemma assigns_filter (p : string -> bool) (names : list string)
      (df df' : DataFrame) :
  (forall k, In k names -> p k = false) ->
  assigns names df df' ->
  filter p (columns df') = filter p (columns df).
Proof.
  intros Hp [_ (a & C & I)]. rewrite C, filter_app. clear C.
  replace (filter p a) with (@nil string); [apply app_nil_r |].
  symmetry. induction a as [| x a IH]; simpl; [reflexivity |].
  rewrite (Hp x) by (apply I; now left).
  apply IH. intros y Hy. apply I. now right.
Qed.

Lemma assigns_In_inv (names : list string) (df df' : DataFrame) (k : string) :
  assigns names df df' -> In k (columns df') ->
  In k (columns df) \/ In k names.
Proof.
  intros [_ (a & C & I)] H. rewrite C in H. apply in_app_or in H.
  destruct H as [H | H]; [now left | right; now apply I].
Qed.

(** ** The stages of [load_data] *)

Ltac in_names := simpl; tauto.

Ltac by_names H :=
  simpl in H;
  repeat (destruct H as [<- | H]; [reflexivity |]);
  contradiction.

Lemma calendar_not_temp k : In k calendar_names -> is_temp_name k = false.
Proof. intros H. by_names H. Qed.

Lemma calendar_not_precip k : In k calendar_names -> is_precip_name k = false.
Proof. intros H. by_names H. Qed.

Lemma temperature_not_precip k :
  In k temperature_names -> is_precip_name k = false.
Proof. intros H. by_names H. Qed.

Lemma filter_In_true {A} (p : A -> bool) (xs : list A) (x : A) (rest : list A) :
  filter p xs = x :: rest -> In x xs /\ p x = true.
Proof.
  intros H. apply filter_In. rewrite H. now left.
Qed.

Section PipelineFacts.

Context {conv : Converter}.

Lemma load_data_Loaded (raw out : DataFrame) :
  load_data (Ok raw) = Loaded out <-> enrich raw = Ok out.
Proof.
  unfold load_data. simpl. destruct (enrich raw) as [df | e].
  - split; intros H; injection H as ->; reflexivity.
  - split; intros H; discriminate H.
Qed.

Lemma load_data_Stopped (raw : DataFrame) (e : exn) :
  enrich raw = Raise e -> load_data (Ok raw) = Stopped (except e).
Proof. unfold load_data. simpl. now intros ->. Qed.

Lemma add_calendar_spec (df : DataFrame) (d : list (option Timestamp)) :
  getitem df "Date" = Ok (map date_cell d) ->
  add_calendar df = Ok (with_calendar df d).
Proof.
  intros H. unfold add_calendar, with_calendar.
  rewrite H. simpl. rewrite dt_date_cells. simpl.
  rewrite !getitem_setitem_ne by discriminate.
  rewrite H. simpl. rewrite dt_date_cells. simpl.
  rewrite !getitem_setitem_ne by discriminate.
  rewrite H. simpl. rewrite dt_date_cells. simpl.
  rewrite !getitem_setitem_ne by discriminate.
  rewrite H. simpl. rewrite dt_date_cells. simpl.
  rewrite (getitem_setitem_ne _ "Month_Name" "Month") by discriminate.
  rewrite (getitem_setitem_ne _ "Day" "Month") by discriminate.
  rewrite getitem_setitem_eq. reflexivity.
Qed.

Lemma with_calendar_assigns (df : DataFrame) (d : list (option Timestamp)) :
  assigns calendar_names df (with_calendar df d).
Proof.
  unfold with_calendar.
  repeat (eapply assigns_trans; [| apply assigns_setitem; in_names]).
  apply assigns_refl.
Qed.

Lemma with_calendar_Date (df : DataFrame) (d : list (option Timestamp))
      (c : column) :
  getitem df "Date" = Ok c -> getitem (with_calendar df d) "Date" = Ok c.
Proof.
  intros H. unfold with_calendar.
  now rewrite !getitem_setitem_ne by discriminate.
Qed.

Lemma copy_first_inv (cols : list string) (target : string)
      (df df' : DataFrame) :
  copy_first cols target df = Ok df' ->
  (cols = [] /\ df' = df) \/
  (exists c rest v, cols = c :: rest /\ getitem df c = Ok v
                    /\ df' = setitem df target v).
Proof.
  unfold copy_first. destruct cols as [| c rest]; intros H.
  - left. injection H as <-. now split.
  - right. inv_bind H. injection H as <-. now exists c, rest, v.
Qed.

Lemma copy_first_assigns (names cols : list string) (target : string)
      (df df' : DataFrame) :
  In target names -> copy_first cols target df = Ok df' -> assigns names df df'.
Proof.
  intros Ht H. apply copy_first_inv in H.
  destruct H as [[_ ->] | (c & rest & v & _ & _ & ->)].
  - apply assigns_refl.
  - now apply assigns_setitem.
Qed.

Lemma add_temp_mean_inv (tc : list string) (df df' : DataFrame) :
  add_temp_mean tc df = Ok df' ->
  exists v, df' = setitem df "Temp_Mean" v /\
    match filter is_mean_name tc with
    | m :: _ => getitem df m = Ok v
    | [] =>
        match tc with
        | a :: b :: _ =>
            exists ca cb s, getitem df a = Ok ca /\ getitem df b = Ok cb
                            /\ series_add ca cb = Ok s
                            /\ series_truediv s 2 = Ok v
        | [a] => getitem df a = Ok v
        | [] => False
        end
    end.
Proof.
  unfold add_temp_mean. destruct (filter is_mean_name tc) as [| m rest].
  - destruct tc as [| a [| b tc]]; intros H.
    + discriminate H.
    + inv_bind H. injection H as <-. now exists v.
    + inv_bind H. inv_bind H. inv_bind H. inv_bind H. injection H as <-.
      exists v2. split; [reflexivity |]. now exists v, v0, v1.
  - intros H. inv_bind H. injection H as <-. now exists v.
Qed.

Lemma add_temperature_assigns (tc : list string) (df df' : DataFrame) :
  add_temperature tc df = Ok df' -> assigns temperature_names df df'.
Proof.
  unfold add_temperature. destruct tc as [| t0 tc]; intros H.
  - injection H as <-. apply assigns_refl.
  - inv_bind H. inv_bind H.
    apply add_temp_mean_inv in Hv. destruct Hv as (m & -> & _).
    eapply assigns_trans; [apply assigns_setitem; in_names |].
    eapply assigns_trans;
      eapply copy_first_assigns; try eassumption; in_names.
Qed.

Lemma calendar_assigns (raw : DataFrame) (d : list (option Timestamp)) :
  assigns calendar_names raw (calendar raw d).
Proof.
  unfold calendar. eapply assigns_trans.
  - apply assigns_setitem. in_names.
  - apply with_calendar_assigns.
Qed.

Lemma calendar_Date (raw : DataFrame) (d : list (option Timestamp)) :
  getitem (calendar raw d) "Date" = Ok (map date_cell d).
Proof. apply with_calendar_Date, getitem_setitem_eq. Qed.

Lemma calendar_temp_cols (raw : DataFrame) (d : list (option Timestamp)) :
  filter is_temp_name (columns (calendar raw d)) =
  filter is_temp_name (columns raw).
Proof.
  apply assigns_filter with calendar_names;
    [apply calendar_not_temp | apply calendar_assigns].
Qed.

Lemma calendar_precip_cols (raw : DataFrame) (d : list (option Timestamp)) :
  filter is_precip_name (columns (calendar raw d)) =
  filter is_precip_name (columns raw).
Proof.
  apply assigns_filter with calendar_names;
    [apply calendar_not_precip | apply calendar_assigns].
Qed.

(** [load_data] stage by stage, every intermediate frame made explicit. *)
Lemma enrich_eq (raw : DataFrame) :
  enrich raw =
  (src <- date_source raw ;;
   d <- to_datetime src ;;
   df3 <- add_temperature (filter is_temp_name (columns raw)) (calendar raw d) ;;
   df4 <- copy_first (filter is_precip_name (columns raw)) "Precipitation" df3 ;;
   Ok (take_rows (kept d) df4)).
Proof.
  unfold enrich, add_date.
  destruct (date_source raw) as [src | e]; simpl; [| reflexivity].
  destruct (to_datetime src) as [d | e]; simpl; [| reflexivity].
  rewrite (add_calendar_spec _ d) by apply getitem_setitem_eq. simpl.
  fold (calendar raw d).
  rewrite calendar_temp_cols, calendar_precip_cols.
  destruct (add_temperature _ (calendar raw d)) as [df3 | e] eqn:E3; simpl;
    [| reflexivity].
  destruct (copy_first _ "Precipitation" df3) as [df4 | e] eqn:E4; simpl;
    [| reflexivity].
  unfold dropna.
  apply add_temperature_assigns in E3.
  apply (copy_first_assigns ["Precipitation"]) in E4; [| in_names].
  destruct E3 as [G3 _]. destruct E4 as [G4 _].
  rewrite G4, G3, calendar_Date by (simpl; intuition discriminate).
  simpl. now rewrite notna_date_cells.
Qed.

Lemma enrich_inv (raw out : DataFrame) :
  enrich raw = Ok out ->
  exists src d df3 df4,
    date_source raw = Ok src /\
    to_datetime src = Ok d /\
    add_temperature (filter is_temp_name (columns raw)) (calendar raw d) = Ok df3 /\
    copy_first (filter is_precip_name (columns raw)) "Precipitation" df3 = Ok df4 /\
    out = take_rows (kept d) df4.
Proof.
  rewrite enrich_eq. intros H.
  inv_bind H. inv_bind H. inv_bind H. inv_bind H. injection H as <-.
  now exists v, v0, v1, v2.
Qed.

(** A column that [load_data] never assigns keeps its values, on the rows
    that are kept. *)
Lemma untouched_column (raw out : DataFrame) (k : string) :
  enrich raw = Ok out -> ~ In k derived_names ->
  exists src d,
    date_source raw = Ok src /\ to_datetime src = Ok d /\
    getitem out k = fmap (select (kept d)) (getitem raw k).
Proof.
  intros H Hk. apply enrich_inv in H.
  destruct H as (src & d & df3 & df4 & Hs & Hd & H3 & H4 & ->).
  exists src, d. repeat split; try assumption.
  rewrite getitem_take_rows. f_equal.
  apply add_temperature_assigns in H3.
  apply (copy_first_assigns ["Precipitation"]) in H4; [| in_names].
  destruct H3 as [G3 _]. destruct H4 as [G4 _].
  destruct (calendar_assigns raw d) as [G1 _].
  rewrite G4, G3, G1; [reflexivity | | |];
    intros Hin; apply Hk; simpl in *; tauto.
Qed.

Lemma temp_column_raw (raw : DataFrame) (d : list (option Timestamp))
      (k : string) :
  is_temp_name k = true -> getitem (calendar raw d) k = getitem raw k.
Proof.
  intros Hk. destruct (calendar_assigns raw d) as [G _]. apply G.
  intros Hin. apply calendar_not_temp in Hin. congruence.
Qed.

Lemma precip_column_raw (raw : DataFrame) (d : list (option Timestamp))
      (df3 : DataFrame) (tc : list string) (k : string) :
  add_temperature tc (calendar raw d) = Ok df3 ->
  is_precip_name k = true -> getitem df3 k = getitem raw k.
Proof.
  intros H3 Hk. apply add_temperature_assigns in H3.
  destruct H3 as [G3 _]. destruct (calendar_assigns raw d) as [G1 _].
  rewrite G3, G1; [reflexivity | |]; intros Hin.
  - apply calendar_not_precip in Hin. congruence.
  - apply temperature_not_precip in Hin. congruence.
Qed.

End PipelineFacts.

(** ** Averages *)

Lemma cell_average (x y z w : cell) :
  cell_add x y = Ok z -> cell_truediv 2 z = Ok w -> average_of x y w.
Proof.
  destruct x as [a | a | t | |], y as [b | b | t' | |]; cbn [cell_add];
    intros Hz; try discriminate Hz; apply Ok_inj in Hz; subst z;
    cbn [cell_truediv];
    intros Hw; try discriminate Hw; apply Ok_inj in Hw; subst w;
    try apply average_na_l; try apply average_na_r.
  apply average_num. etransitivity; [apply Qred_correct |].
  apply Qdiv_comp; [apply Qred_correct | reflexivity].
Qed.

Lemma series_average (a b : column) :
  forall s v, series_add a b = Ok s -> series_truediv s 2 = Ok v ->
              rowwise average_of a b v.
Proof.
  unfold series_truediv. revert b.
  induction a as [| x a IH]; intros [| y b] s v Hs Hv; simpl in Hs;
    try discriminate Hs.
  - injection Hs as <-. simpl in Hv. injection Hv as <-. constructor.
  - inv_bind Hs. inv_bind Hs. injection Hs as <-.
    simpl in Hv. inv_bind Hv. inv_bind Hv. injection Hv as <-.
    constructor.
    + eapply cell_average; eassumption.
    + eapply IH; eassumption.
Qed.



(** ** C1: how Temp_Mean is chosen *)

Section TempMean.

Context {conv : Converter}.

Lemma temp_cols_temp (raw : DataFrame) (k : string) :
  In k (temp_cols raw) -> is_temp_name k = true.
Proof. unfold temp_cols. intros H. now apply filter_In in H. Qed.

(** What line 63, 66 or 68 stores in Temp_Mean, and what is left of it in
    the returned table. *)
Lemma temp_mean_stored (raw out : DataFrame) :
  enrich raw = Ok out -> temp_cols raw <> [] ->
  exists src d v,
    date_source raw = Ok src /\ to_datetime src = Ok d /\
    getitem out "Temp_Mean" = Ok (select (kept d) v) /\
    match filter is_mean_name (temp_cols raw) with
    | m :: _ => getitem raw m = Ok v
    | [] =>
        match temp_cols raw with
        | a :: b :: _ =>
            exists ca cb s, getitem raw a = Ok ca /\ getitem raw b = Ok cb
                            /\ series_add ca cb = Ok s
                            /\ series_truediv s 2 = Ok v
        | [a] => getitem raw a = Ok v
        | [] => False
        end
    end.
Proof.
  intros H Hne. apply enrich_inv in H.
  destruct H as (src & d & df3 & df4 & Hs & Hd & H3 & H4 & ->).
  fold (temp_cols raw) in H3. unfold add_temperature in H3.
  destruct (temp_cols raw) as [| t0 tc] eqn:Etc; [contradiction |].
  inv_bind H3. inv_bind H3.
  apply add_temp_mean_inv in Hv. destruct Hv as (m & -> & Hm).
  exists src, d, m. repeat split; try assumption.
  - rewrite getitem_take_rows.
    apply (copy_first_assigns ["Temp_Max"]) in Hv0; [| in_names].
    apply (copy_first_assigns ["Temp_Min"]) in H3; [| in_names].
    apply (copy_first_assigns ["Precipitation"]) in H4; [| in_names].
    destruct Hv0 as [G1 _], H3 as [G2 _], H4 as [G3 _].
    rewrite G3, G2, G1 by (simpl; intuition discriminate).
    now rewrite getitem_setitem_eq.
  - assert (Ht : forall k, In k (t0 :: tc) -> is_temp_name k = true)
      by (intros k Hk; apply (temp_cols_temp raw); now rewrite Etc).
    destruct (filter is_mean_name (t0 :: tc)) as [| k rest] eqn:Em.
    + destruct tc as [| t1 tc].
      * rewrite temp_column_raw in Hm; [exact Hm | apply Ht; now left].
      * destruct Hm as (ca & cb & s & Ha & Hb & Hadd & Hdiv).
        rewrite temp_column_raw in Ha by (apply Ht; now left).
        rewrite temp_column_raw in Hb by (apply Ht; right; now left).
        now exists ca, cb, s.
    + apply filter_In_true in Em. destruct Em as [Hin _].
      rewrite temp_column_raw in Hm; [exact Hm | now apply Ht].
Qed.


End TempMean.

(** ** What each derived column holds in the returned table *)

Section Stored.

Context {conv : Converter}.

Lemma calendar_Year raw d :
  getitem (calendar raw d) "Year" = Ok (map (num_field ts_year) d).
Proof.
  unfold calendar, with_calendar.
  rewrite !getitem_setitem_ne by discriminate. apply getitem_setitem_eq.
Qed.

Lemma calendar_Month raw d :
  getitem (calendar raw d) "Month" = Ok (map (num_field ts_month) d).
Proof.
  unfold calendar, with_calendar.
  rewrite !getitem_setitem_ne by discriminate. apply getitem_setitem_eq.
Qed.

Lemma calendar_Day raw d :
  getitem (calendar raw d) "Day" = Ok (map (num_field ts_day) d).
Proof.
  unfold calendar, with_calendar.
  rewrite !getitem_setitem_ne by discriminate. apply getitem_setitem_eq.
Qed.

Lemma calendar_Month_Name raw d :
  getitem (calendar raw d) "Month_Name" = Ok (map strftime_B d).
Proof.
  unfold calendar, with_calendar.
  rewrite !getitem_setitem_ne by discriminate. apply getitem_setitem_eq.
Qed.

Lemma calendar_Season raw d :
  getitem (calendar raw d) "Season" =
  Ok (series_map season_dict (map (num_field ts_month) d)).
Proof. unfold calendar, with_calendar. apply getitem_setitem_eq. Qed.

(** The dates of a successful load are the conversion of its date source. *)
Lemma loaded_dates (raw out : DataFrame) :
  enrich raw = Ok out ->
  exists src d, date_source raw = Ok src /\ to_datetime src = Ok d.
Proof.
  intros H. apply enrich_inv in H.
  destruct H as (src & d & _ & _ & Hs & Hd & _). now exists src, d.
Qed.

Lemma calendar_stored (raw out : DataFrame) src d (k : string) :
  enrich raw = Ok out -> date_source raw = Ok src -> to_datetime src = Ok d ->
  In k calendar_names ->
  getitem out k = fmap (select (kept d)) (getitem (calendar raw d) k).
Proof.
  intros H Hs Hd Hk. apply enrich_inv in H.
  destruct H as (src' & d' & df3 & df4 & Hs' & Hd' & H3 & H4 & ->).
  rewrite Hs in Hs'. injection Hs' as <-. rewrite Hd in Hd'. injection Hd' as <-.
  rewrite getitem_take_rows. f_equal.
  apply add_temperature_assigns in H3.
  apply (copy_first_assigns ["Precipitation"]) in H4; [| in_names].
  destruct H3 as [G3 _], H4 as [G4 _].
  rewrite G4, G3; [reflexivity | |]; intros Hin; simpl in Hk, Hin;
    intuition (subst; discriminate).
Qed.

Lemma untouched_stored (raw out : DataFrame) src d (k : string) :
  enrich raw = Ok out -> date_source raw = Ok src -> to_datetime src = Ok d ->
  ~ In k derived_names ->
  getitem out k = fmap (select (kept d)) (getitem raw k).
Proof.
  intros H Hs Hd Hk.
  destruct (untouched_column raw out k H Hk) as (src' & d' & Hs' & Hd' & Hk').
  rewrite Hs in Hs'. injection Hs' as <-. rewrite Hd in Hd'. injection Hd' as <-.
  exact Hk'.
Qed.

Lemma temp_max_stored (raw out : DataFrame) src d (m : string) rest :
  enrich raw = Ok out -> date_source raw = Ok src -> to_datetime src = Ok d ->
  filter is_max_name (temp_cols raw) = m :: rest ->
  exists c, getitem raw m = Ok c /\
            getitem out "Temp_Max" = Ok (select (kept d) c).
Proof.
  intros H Hs Hd Hm. apply enrich_inv in H.
  destruct H as (src' & d' & df3 & df4 & Hs' & Hd' & H3 & H4 & ->).
  rewrite Hs in Hs'. injection Hs' as <-. rewrite Hd in Hd'. injection Hd' as <-.
  fold (temp_cols raw) in H3. unfold add_temperature in H3.
  destruct (filter_In_true _ _ _ _ Hm) as [Hin Hmax].
  apply temp_cols_temp in Hin.
  destruct (temp_cols raw) as [| t0 tc]; [discriminate Hm |].
  inv_bind H3. inv_bind H3.
  apply add_temp_mean_inv in Hv. destruct Hv as (mean & -> & _).
  rewrite Hm in Hv0. apply copy_first_inv in Hv0.
  destruct Hv0 as [[E _] | (c & r & v & E & Hc & ->)]; [discriminate E |].
  injection E as <- <-.
  rewrite getitem_setitem_ne in Hc by (intros <-; discriminate Hmax).
  rewrite temp_column_raw in Hc by exact Hin.
  exists v. split; [exact Hc |].
  rewrite getitem_take_rows.
  apply (copy_first_assigns ["Temp_Min"]) in H3; [| in_names].
  apply (copy_first_assigns ["Precipitation"]) in H4; [| in_names].
  destruct H3 as [G3 _], H4 as [G4 _].
  rewrite G4, G3 by (simpl; intuition discriminate).
  now rewrite getitem_setitem_eq.
Qed.

Lemma temp_min_stored (raw out : DataFrame) src d (m : string) rest :
  enrich raw = Ok out -> date_source raw = Ok src -> to_datetime src = Ok d ->
  filter is_min_name (temp_cols raw) = m :: rest ->
  exists c, getitem raw m = Ok c /\
            getitem out "Temp_Min" = Ok (select (kept d) c).
Proof.
  intros H Hs Hd Hm. apply enrich_inv in H.
  destruct H as (src' & d' & df3 & df4 & Hs' & Hd' & H3 & H4 & ->).
  rewrite Hs in Hs'. injection Hs' as <-. rewrite Hd in Hd'. injection Hd' as <-.
  fold (temp_cols raw) in H3. unfold add_temperature in H3.
  destruct (filter_In_true _ _ _ _ Hm) as [Hin Hmin].
  apply temp_cols_temp in Hin.
  destruct (temp_cols raw) as [| t0 tc]; [discriminate Hm |].
  inv_bind H3. inv_bind H3.
  apply add_temp_mean_inv in Hv. destruct Hv as (mean & -> & _).
  apply (copy_first_assigns ["Temp_Max"]) in Hv0; [| in_names].
  destruct Hv0 as [G2 _].
  rewrite Hm in H3. apply copy_first_inv in H3.
  destruct H3 as [[E _] | (c & r & v & E & Hc & ->)]; [discriminate E |].
  injection E as <- <-.
  rewrite G2 in Hc by (intros [<- | []]; discriminate Hmin).
  rewrite getitem_setitem_ne in Hc by (intros <-; discriminate Hmin).
  rewrite temp_column_raw in Hc by exact Hin.
  exists v. split; [exact Hc |].
  rewrite getitem_take_rows.
  apply (copy_first_assigns ["Precipitation"]) in H4; [| in_names].
  destruct H4 as [G4 _].
  rewrite G4 by (simpl; intuition discriminate).
  now rewrite getitem_setitem_eq.
Qed.

Lemma precipitation_stored (raw out : DataFrame) src d (p : string) rest :
  enrich raw = Ok out -> date_source raw = Ok src -> to_datetime src = Ok d ->
  precip_cols raw = p :: rest ->
  exists c, getitem raw p = Ok c /\
            getitem out "Precipitation" = Ok (select (kept d) c).
Proof.
  intros H Hs Hd Hp. apply enrich_inv in H.
  destruct H as (src' & d' & df3 & df4 & Hs' & Hd' & H3 & H4 & ->).
  rewrite Hs in Hs'. injection Hs' as <-. rewrite Hd in Hd'. injection Hd' as <-.
  fold (precip_cols raw) in H4. rewrite Hp in H4.
  destruct (filter_In_true _ _ _ _ Hp) as [_ Hpre].
  apply copy_first_inv in H4.
  destruct H4 as [[E _] | (c & r & v & E & Hc & ->)]; [discriminate E |].
  injection E as <- <-.
  rewrite (precip_column_raw raw d df3 _ p H3 Hpre) in Hc.
  exists v. split; [exact Hc |].
  now rewrite getitem_take_rows, getitem_setitem_eq.
Qed.

(** Without a precipitation-like column nothing is assigned to
    Precipitation, and the raw table has no column of that name. *)
Lemma precipitation_absent (raw out : DataFrame) :
  enrich raw = Ok out -> precip_cols raw = [] ->
  ~ In "Precipitation" (columns out).
Proof.
  intros H Hp. apply enrich_inv in H.
  destruct H as (src & d & df3 & df4 & Hs & Hd & H3 & H4 & ->).
  fold (precip_cols raw) in H4. rewrite Hp in H4. injection H4 as <-.
  rewrite columns_take_rows. intros Hin.
  apply add_temperature_assigns in H3.
  apply (assigns_In_inv _ _ _ _ H3) in Hin.
  destruct Hin as [Hin | Hin]; [| simpl in Hin; intuition discriminate].
  apply (assigns_In_inv _ _ _ _ (calendar_assigns raw d)) in Hin.
  destruct Hin as [Hin | Hin]; [| simpl in Hin; intuition discriminate].
  assert (Hf : In "Precipitation" (precip_cols raw))
    by (apply filter_In; split; [exact Hin | reflexivity]).
  now rewrite Hp in Hf.
Qed.

(** Without a temperature-like column nothing is assigned to Temp_Mean. *)
Lemma temp_mean_absent (raw out : DataFrame) :
  enrich raw = Ok out -> temp_cols raw = [] ->
  ~ In "Temp_Mean" (columns out).
Proof.
  intros H Ht. apply enrich_inv in H.
  destruct H as (src & d & df3 & df4 & Hs & Hd & H3 & H4 & ->).
  fold (temp_cols raw) in H3. rewrite Ht in H3. injection H3 as <-.
  rewrite columns_take_rows. intros Hin.
  apply (copy_first_assigns ["Precipitation"]) in H4; [| in_names].
  apply (assigns_In_inv _ _ _ _ H4) in Hin.
  destruct Hin as [Hin | Hin]; [| simpl in Hin; intuition discriminate].
  apply (assigns_In_inv _ _ _ _ (calendar_assigns raw d)) in Hin.
  destruct Hin as [Hin | Hin]; [| simpl in Hin; intuition discriminate].
  assert (Hf : In "Temp_Mean" (temp_cols raw))
    by (apply filter_In; split; [exact Hin | reflexivity]).
  now rewrite Ht in Hf.
Qed.

End Stored.


(** ** C2: which column the dates are read from *)

Lemma filter_first {A} (p : A -> bool) (pre : list A) (x : A) (post : list A) :
  forallb (fun y => negb (p y)) pre = true -> p x = true ->
  filter p (pre ++ x :: post) = x :: filter p post.
Proof.
  intros Hpre Hx. rewrite filter_app. simpl. rewrite Hx.
  replace (filter p pre) with (@nil A); [reflexivity |].
  symmetry. induction pre as [| y pre IH]; simpl in *; [reflexivity |].
  apply andb_prop in Hpre. destruct Hpre as [Hy Hpre].
  apply negb_true_iff in Hy. rewrite Hy. now apply IH.
Qed.

Section DateSource.

Context {conv : Converter}.

Lemma date_stored (raw out : DataFrame) src d :
  enrich raw = Ok out -> date_source raw = Ok src -> to_datetime src = Ok d ->
  getitem out "Date" = Ok (select (kept d) (map date_cell d)).
Proof.
  intros H Hs Hd.
  rewrite (calendar_stored raw out src d "Date" H Hs Hd) by in_names.
  now rewrite calendar_Date.
Qed.

(** C2, as the code has it.  The dates are read from the first column, in
    header order, whose lower-cased name contains "date" or "time".  A
    column named exactly "Date" is that column when no column with such a
    name comes before it in the header.  Without any such name the dates
    are read from the first column of the table. *)
Theorem date_source_first_match (raw out : DataFrame) :
  load_data (Ok raw) = Loaded out ->
  (forall c rest,
      date_cols raw = c :: rest ->
      exists src d,
        getitem raw c = Ok src /\ to_datetime src = Ok d /\
        getitem out "Date" = Ok (select (kept d) (map date_cell d))) /\
  (forall pre post,
      columns raw = pre ++ "Date" :: post ->
      forallb (fun c => negb (is_date_name c)) pre = true ->
      exists src d,
        getitem raw "Date" = Ok src /\ to_datetime src = Ok d /\
        getitem out "Date" = Ok (select (kept d) (map date_cell d))) /\
  (date_cols raw = [] ->
   exists src d,
     iloc_col0 raw = Ok src /\ to_datetime src = Ok d /\
     getitem out "Date" = Ok (select (kept d) (map date_cell d))).
Proof.
  intros H. apply load_data_Loaded in H.
  destruct (loaded_dates raw out H) as (src & d & Hs & Hd).
  pose proof (date_stored raw out src d H Hs Hd) as Hout.
  assert (Hfirst : forall c rest, date_cols raw = c :: rest ->
                                  getitem raw c = Ok src).
  { intros c rest Hc. unfold date_source in Hs.
    fold (date_cols raw) in Hs. now rewrite Hc in Hs. }
  split; [| split].
  - intros c rest Hc. exists src, d. repeat split; try assumption.
    now apply (Hfirst c rest).
  - intros pre post Hcols Hpre. exists src, d. repeat split; try assumption.
    apply (Hfirst "Date" (filter is_date_name post)).
    unfold date_cols. rewrite Hcols. now apply filter_first.
  - intros Hnone. exists src, d. repeat split; try assumption.
    unfold date_source in Hs. fold (date_cols raw) in Hs.
    now rewrite Hnone in Hs.
Qed.

End DateSource.

(** The column named exactly "Date" is not the date source here: the dates
    of the returned table are those of the earlier column "Time". *)
Lemma exact_Date_not_chosen :
  In "Date" (columns time_date_table) /\
  getitem time_date_table "Date" = Ok [Str "2021-02-02"] /\
  date_source time_date_table = Ok [Str "2020-01-01"] /\
  exists out,
    load_data (conv := iso_converter) (Ok time_date_table) = Loaded out /\
    getitem out "Date" = Ok [Ts (mkTimestamp 2020 1 1 0)].
Proof.
  split; [right; left; reflexivity |].
  split; [reflexivity |]. split; [reflexivity |].
  eexists. split; reflexivity.
Qed.

Lemma date_source_first_match_witness :
  exists out,
    load_data (conv := iso_converter) (Ok tx_date_table) = Loaded out /\
    (exists src d,
        getitem tx_date_table "Date" = Ok src /\
        to_datetime (Converter := iso_converter) src = Ok d /\
        getitem out "Date" = Ok (select (kept d) (map date_cell d))) /\
    (exists src d,
        getitem tx_date_table "Date" = Ok src /\
        to_datetime (Converter := iso_converter) src = Ok d /\
        getitem out "Date" = Ok (select (kept d) (map date_cell d))).
Proof.
  eexists. split; [reflexivity |].
  destruct (date_source_first_match (conv := iso_converter) tx_date_table _
              eq_refl) as [Hfirst [Hexact _]].
  split.
  - apply (Hfirst "Date" []). reflexivity.
  - apply (Hexact ["TX"] []); reflexivity.
Defined.

(** ** C3: a date that cannot be converted *)

Lemma kept_dates_valid (d : list (option Timestamp)) :
  Forall (fun c => exists t, c = Ts t) (select (kept d) (map date_cell d)).
Proof.
  induction d as [| [t |] d IH]; simpl; [constructor | | exact IH].
  constructor; [now exists t | exact IH].
Qed.

Section DateFailure.

Context {conv : Converter}.

(** C3, as the code has it.  [pd.to_datetime] is called with its default
    [errors='raise']: a value it rejects raises, the generic handler
    reports the exception and stops, and no table is returned.  Only a
    date converted to NaT, that is a missing one, is recovered from by
    leaving the row out: the returned table then has a valid Date in
    every row and the other rows of every untouched column. *)
Theorem date_failure_stops_load (raw : DataFrame) :
  (forall src e,
      date_source raw = Ok src -> to_datetime src = Raise e ->
      load_data (Ok raw) = Stopped (except e)) /\
  (forall out,
      load_data (Ok raw) = Loaded out ->
      exists src d,
        date_source raw = Ok src /\ to_datetime src = Ok d /\
        getitem out "Date" = Ok (select (kept d) (map date_cell d)) /\
        Forall (fun c => exists t, c = Ts t)
               (select (kept d) (map date_cell d)) /\
        (forall k, ~ In k derived_names ->
                   getitem out k = fmap (select (kept d)) (getitem raw k))).
Proof.
  split.
  - intros src e Hs Hd. apply load_data_Stopped.
    rewrite enrich_eq, Hs. simpl. now rewrite Hd.
  - intros out H. apply load_data_Loaded in H.
    destruct (loaded_dates raw out H) as (src & d & Hs & Hd).
    exists src, d. repeat split; try assumption.
    + exact (date_stored raw out src d H Hs Hd).
    + apply kept_dates_valid.
    + intros k Hk. exact (untouched_stored raw out src d k H Hs Hd Hk).
Qed.

End DateFailure.

(** The row with the unparseable date is not dropped: the load stops with
    the generic error and returns no row at all. *)
Lemma unparseable_date_aborts_load :
  load_data (conv := iso_converter) (Ok bad_date_table)
  = Stopped (load_error DateParseError).
Proof. reflexivity. Qed.

Lemma date_failure_stops_load_witness :
  (date_source bad_date_table
   = Ok [Str "2020-01-01"; Str "not a date"; Str "2020-01-03"] /\
   load_data (conv := iso_converter) (Ok bad_date_table)
   = Stopped (except DateParseError)) /\
  (exists out src d,
      load_data (conv := iso_converter) (Ok tn_tx_table) = Loaded out /\
      date_source tn_tx_table = Ok src /\
      to_datetime (Converter := iso_converter) src = Ok d /\
      getitem out "Date" = Ok (select (kept d) (map date_cell d))).
Proof.
  split.
  - split; [reflexivity |].
    apply (proj1 (date_failure_stops_load (conv := iso_converter) bad_date_table)
                 [Str "2020-01-01"; Str "not a date"; Str "2020-01-03"]);
      reflexivity.
  - eexists.
    destruct (proj2 (date_failure_stops_load (conv := iso_converter) tn_tx_table)
                    _ eq_refl) as (src & d & Hs & Hd & Hout & _).
    exists src, d. repeat split; assumption.
Defined.

(** ** C4: rows of the input and rows of the output *)

Lemma rectangular_getitem n df k c :
  rectangular n df -> getitem df k = Ok c -> length c = n.
Proof.
  unfold rectangular. induction df as [| [m c'] df IH]; simpl; intros Hr H;
    [discriminate H |].
  pose proof (Forall_inv Hr) as Hx. apply Forall_inv_tail in Hr. simpl in Hx.
  destruct (String.eqb m k); [injection H as <-; exact Hx | now apply IH].
Qed.

Lemma rectangular_setitem n df k v :
  rectangular n df -> length v = n -> rectangular n (setitem df k v).
Proof.
  unfold rectangular. intros Hr Hv.
  induction df as [| [m c'] df IH]; simpl.
  - constructor; [exact Hv | constructor].
  - pose proof (Forall_inv Hr) as Hx. apply Forall_inv_tail in Hr.
    destruct (String.eqb m k); constructor; try assumption. now apply IH.
Qed.

Lemma rectangular_take_rows n df mask :
  rectangular n df -> length mask = n ->
  rectangular (kept_count mask) (take_rows mask df).
Proof.
  unfold rectangular, take_rows. intros Hr Hm.
  apply Forall_map. eapply Forall_impl; [| exact Hr].
  intros [m c] Hc. simpl in *. apply length_select. congruence.
Qed.

Lemma series_add_length a : forall b s, series_add a b = Ok s -> length s = length a.
Proof.
  induction a as [| x a IH]; intros [| y b] s H; simpl in H; try discriminate H.
  - now injection H as <-.
  - inv_bind H. inv_bind H. injection H as <-. simpl. f_equal. eapply IH, Hv0.
Qed.

Lemma date_source_length n raw src :
  rectangular n raw -> date_source raw = Ok src -> length src = n.
Proof.
  unfold date_source. intros Hr H.
  destruct (filter is_date_name (columns raw)) as [| c rest].
  - destruct raw as [| [m c] raw]; [discriminate H |].
    simpl in H. injection H as <-. exact (Forall_inv Hr).
  - eapply rectangular_getitem; eassumption.
Qed.

Lemma rank_surjective mask :
  forall j, (j < kept_count mask)%nat ->
            exists i, nth_error mask i = Some true /\ rank mask i = j.
Proof.
  unfold kept_count, rank.
  induction mask as [| b mask IH]; simpl; intros j Hj; [lia |].
  destruct b; simpl in Hj.
  - destruct j as [| j].
    + exists 0%nat. now split.
    + destruct (IH j ltac:(lia)) as (i & Hi & Hr).
      exists (S i). split; [exact Hi | simpl; now rewrite Hr].
  - destruct (IH j Hj) as (i & Hi & Hr).
    exists (S i). split; [exact Hi | simpl; exact Hr].
Qed.

Lemma kept_true d i :
  nth_error (kept d) i = Some true <-> exists t, nth_error d i = Some (Some t).
Proof.
  unfold kept. rewrite nth_error_map.
  destruct (nth_error d i) as [[t |] |]; simpl; split; intros H;
    try discriminate H; try (destruct H as (t' & H); discriminate H).
  - now exists t.
  - reflexivity.
Qed.

Section Rows.

Context {conv : Converter}.

Lemma calendar_rectangular n raw d :
  rectangular n raw -> length d = n -> rectangular n (calendar raw d).
Proof.
  intros Hr Hd. unfold calendar, with_calendar.
  repeat apply rectangular_setitem; try assumption;
    unfold series_map; now rewrite ?length_map.
Qed.

Lemma copy_first_rectangular n cols target df df' :
  rectangular n df -> copy_first cols target df = Ok df' -> rectangular n df'.
Proof.
  intros Hr H. apply copy_first_inv in H.
  destruct H as [[_ ->] | (c & rest & v & _ & Hc & ->)]; [exact Hr |].
  apply rectangular_setitem; [exact Hr |].
  eapply rectangular_getitem; eassumption.
Qed.

Lemma add_temperature_rectangular n tc df df' :
  rectangular n df -> add_temperature tc df = Ok df' -> rectangular n df'.
Proof.
  intros Hr H. unfold add_temperature in H.
  destruct tc as [| t0 tc]; [now injection H as <- |].
  inv_bind H. inv_bind H.
  eapply copy_first_rectangular; [| exact H].
  eapply copy_first_rectangular; [| exact Hv0].
  apply add_temp_mean_inv in Hv. destruct Hv as (m & -> & Hm).
  apply rectangular_setitem; [exact Hr |].
  destruct (filter is_mean_name (t0 :: tc)) as [| k rest].
  - destruct tc as [| t1 tc].
    + eapply rectangular_getitem; eassumption.
    + destruct Hm as (ca & cb & s & Ha & Hb & Hadd & Hdiv).
      apply mapM_length in Hdiv. apply series_add_length in Hadd.
      rewrite Hdiv, Hadd. eapply rectangular_getitem; eassumption.
  - eapply rectangular_getitem; eassumption.
Qed.

(** C4.  On a table of [n] rows that [load_data] returns a result for, the
    returned rows are exactly the rows whose date was converted, in their
    order: each such row [i] is output row [rank i] and carries its date and
    its own values in every untouched column; two of them never share an
    output row; and every output row is one of them.  Whether a row is kept
    depends on its date alone, not on its other values. *)
Theorem rows_one_to_one (n : nat) (raw out : DataFrame) :
  rectangular n raw ->
  load_data (Ok raw) = Loaded out ->
  exists src d,
    date_source raw = Ok src /\ to_datetime src = Ok d /\ length d = n /\
    rectangular (kept_count (kept d)) out /\
    (forall i t,
        nth_error d i = Some (Some t) ->
        (rank (kept d) i < kept_count (kept d))%nat /\
        (exists dates,
            getitem out "Date" = Ok dates /\
            nth_error dates (rank (kept d) i) = Some (Ts t)) /\
        (forall k c,
            ~ In k derived_names -> getitem raw k = Ok c ->
            exists c', getitem out k = Ok c' /\
                       nth_error c' (rank (kept d) i) = nth_error c i)) /\
    (forall i j t t',
        (i < j)%nat ->
        nth_error d i = Some (Some t) -> nth_error d j = Some (Some t') ->
        (rank (kept d) i < rank (kept d) j)%nat) /\
    (forall j,
        (j < kept_count (kept d))%nat ->
        exists i t, nth_error d i = Some (Some t) /\ rank (kept d) i = j).
Proof.
  intros Hr H. apply load_data_Loaded in H.
  destruct (loaded_dates raw out H) as (src & d & Hs & Hd).
  exists src, d.
  assert (Hlen : length d = n).
  { rewrite (to_datetime_length _ _ Hd).
    exact (date_source_length n raw src Hr Hs). }
  split; [exact Hs |]. split; [exact Hd |]. split; [exact Hlen |].
  split; [| split; [| split]].
  - pose proof H as H'. apply enrich_inv in H'.
    destruct H' as (src' & d' & df3 & df4 & Hs' & Hd' & H3 & H4 & ->).
    rewrite Hs in Hs'. injection Hs' as <-.
    rewrite Hd in Hd'. injection Hd' as <-.
    apply (rectangular_take_rows n); [| now rewrite length_kept].
    eapply copy_first_rectangular; [| exact H4].
    eapply add_temperature_rectangular; [| exact H3].
    now apply calendar_rectangular.
  - intros i t Hi.
    assert (Hk : nth_error (kept d) i = Some true)
      by (apply kept_true; now exists t).
    split; [now apply rank_bound |]. split.
    + exists (select (kept d) (map date_cell d)).
      split; [exact (date_stored raw out src d H Hs Hd) |].
      rewrite nth_error_select by exact Hk.
      now rewrite nth_error_map, Hi.
    + intros k c Hnd Hc. exists (select (kept d) c). split.
      * now rewrite (untouched_stored raw out src d k H Hs Hd Hnd), Hc.
      * now apply nth_error_select.
  - intros i j t t' Hij Hi Hj. apply rank_lt; [exact Hij |].
    apply kept_true. now exists t.
  - intros j Hj. destruct (rank_surjective (kept d) j Hj) as (i & Hi & Hrk).
    apply kept_true in Hi. destruct Hi as (t & Hi). now exists i, t.
Qed.

End Rows.

Lemma rows_one_to_one_witness :
  rectangular 3 tn_tx_table /\
  exists out,
    load_data (conv := iso_converter) (Ok tn_tx_table) = Loaded out /\
    rectangular 2 out /\
    exists c', getitem out "TX" = Ok c' /\ nth_error c' 1 = Some NaN.
Proof.
  assert (Hr : rectangular 3 tn_tx_table) by (repeat constructor).
  split; [exact Hr |]. eexists. split; [reflexivity |].
  destruct (rows_one_to_one (conv := iso_converter) 3 tn_tx_table _ Hr eq_refl)
    as (src & d & Hs & Hd & Hlen & Hrect & Hrow & _).
  injection Hs as <-. injection Hd as <-.
  split; [exact Hrect |].
  destruct (Hrow 2%nat (mkTimestamp 2021 3 3 0) eq_refl) as (_ & _ & Hcol).
  apply (Hcol "TX" [Num 11; Num 12; NaN]).
  - simpl. intuition discriminate.
  - reflexivity.
Defined.

(** ** C5: the scenario of the specification *)

(** C5.  With a converter that reads "2020-01-01" as the first of January
    2020, the table with header DATE, TX, TN, RR and the single row
    ("2020-01-01", 10, 0, 5) is returned with exactly one row, in which
    Date = 2020-01-01, Year = 2020, Month = 1, Season = "Winter",
    Temp_Max = 10, Temp_Min = 0, Temp_Mean = 5 and Precipitation = 5. *)
Theorem scenario_row {conv : Converter} :
  to_datetime [Str "2020-01-01"] = Ok [Some (mkTimestamp 2020 1 1 0)] ->
  load_data (Ok scenario_table) = Loaded scenario_result.
Proof.
  intros Hd. apply load_data_Loaded. rewrite enrich_eq.
  change (date_source scenario_table) with (Ok [Str "2020-01-01"]).
  cbn [bind]. rewrite Hd. reflexivity.
Qed.

Lemma scenario_row_witness :
  to_datetime (Converter := iso_converter) [Str "2020-01-01"]
  = Ok [Some (mkTimestamp 2020 1 1 0)] /\
  load_data (conv := iso_converter) (Ok scenario_table) = Loaded scenario_result.
Proof.
  split; [reflexivity |].
  apply (scenario_row (conv := iso_converter)). reflexivity.
Defined.

(** ** The pages on a table without Precipitation *)



Module PageProperties.

Import Pages.
Local Open Scope script_scope.



Section Rules.

Variable w : widgets.













End Rules.












(** ** C9: the analysis page on a table without Temp_Mean *)

Lemma analysis_unbound (df : DataFrame) :
  has_column df "Temp_Mean" = false ->
  analysis (mkState df [] [] []) =
  (mkState df [] []
           [markdown "# 2. ANALYSIS: Long-term Climate Trends</p>"],
   Raise (NameError "temp_change")).
Proof.
  intros Hc. unfold analysis.
  unfold sbind at 1. cbn [show frame bound reads shown].
  unfold sbind at 1. unfold in_columns at 1. cbn [frame]. rewrite Hc.
  unfold sbind at 1. cbn [when ret].
  unfold sbind at 1. reflexivity.
Qed.

(** C9.  A returned table has no Temp_Mean column exactly when the raw
    header has no temperature-like column.  On such a table the page
    "2. ANALYSIS" shows its title and then fails with [NameError] on
    [temp_change], which only the guarded temperature section assigns:
    nothing else of the page is shown. *)
Theorem analysis_without_temperature {conv : Converter}
        (raw out : DataFrame) (w : widgets) :
  load_data (Ok raw) = Loaded out ->
  (temp_cols raw = [] <-> ~ In "Temp_Mean" (columns out)) /\
  (~ In "Temp_Mean" (columns out) ->
   page_choice w = analysis_page ->
   run out w =
   (mkState out [] []
            [markdown "# 2. ANALYSIS: Long-term Climate Trends</p>"],
    Raise (NameError "temp_change"))).
Proof.
  intros H. apply load_data_Loaded in H. split.
  - split.
    + now apply temp_mean_absent.
    + intros Habs. destruct (temp_cols raw) as [| t0 tc] eqn:E;
        [reflexivity |]. exfalso. apply Habs.
      destruct (temp_mean_stored raw out H) as (src & d & v & _ & _ & Hg & _).
      * rewrite E. discriminate.
      * now apply getitem_Ok_In in Hg.
  - intros Habs Hpage.
    assert (Hc : has_column out "Temp_Mean" = false).
    { destruct (has_column out "Temp_Mean") eqn:E; [| reflexivity].
      apply has_column_In in E. contradiction. }
    unfold run, dashboard, page. rewrite Hpage.
    cbn [page_label]. change (String.eqb "2. ANALYSIS" "1. THE PROBLEM") with false.
    change (String.eqb "2. ANALYSIS" "2. ANALYSIS") with true.
    cbv iota. unfold sbind at 1. now rewrite (analysis_unbound out Hc).
Qed.

Lemma analysis_without_temperature_witness :
  exists out,
    load_data (conv := iso_converter) (Ok rain_table) = Loaded out /\
    snd (run out (mkWidgets analysis_page Temperature Winter))
    = Raise (NameError "temp_change").
Proof.
  eexists. split; [reflexivity |].
  destruct (analysis_without_temperature (conv := iso_converter) rain_table _
              (mkWidgets analysis_page Temperature Winter) eq_refl)
    as [Hiff Hrun].
  rewrite Hrun; [reflexivity | | reflexivity].
  apply Hiff. reflexivity.
Defined.

End PageProperties.

(** ** C7: repeated calls *)

Section Cache.

Context {conv : Converter}.




End Cache.

(** ** C8: the values of Precipitation *)

Section Precipitation.

Context {conv : Converter}.

(** C8, as the code has it.  Precipitation is the first precipitation-like
    column of the raw table, copied as it is on the kept rows: [load_data]
    neither checks nor clamps the values.  They are non-negative numbers
    when those of the source column are. *)
Theorem precipitation_verbatim (raw out : DataFrame) :
  load_data (Ok raw) = Loaded out ->
  forall p rest,
    precip_cols raw = p :: rest ->
    exists src d c,
      date_source raw = Ok src /\ to_datetime src = Ok d /\
      getitem raw p = Ok c /\
      getitem out "Precipitation" = Ok (select (kept d) c) /\
      (Forall nonneg_number c -> Forall nonneg_number (select (kept d) c)).
Proof.
  intros H p rest Hp. apply load_data_Loaded in H.
  destruct (loaded_dates raw out H) as (src & d & Hs & Hd).
  destruct (precipitation_stored raw out src d p rest H Hs Hd Hp)
    as (c & Hc & Hout).
  exists src, d, c. repeat split; try assumption.
  apply Forall_select.
Qed.

End Precipitation.

(** The negative reading is returned as it is. *)
Lemma negative_precipitation_returned :
  exists out,
    load_data (conv := iso_converter) (Ok negative_rain_table) = Loaded out /\
    getitem out "Precipitation" = Ok [Num (-3)] /\
    ~ Forall nonneg_number [Num (-3)].
Proof.
  eexists. split; [reflexivity |]. split; [reflexivity |].
  intros H. apply Forall_inv in H. simpl in H. now apply H.
Qed.

Lemma precipitation_verbatim_witness :
  exists out,
    load_data (conv := iso_converter) (Ok scenario_table) = Loaded out /\
    precip_cols scenario_table = ["RR"] /\
    exists c, getitem out "Precipitation" = Ok c /\ Forall nonneg_number c.
Proof.
  eexists. split; [reflexivity |]. split; [reflexivity |].
  destruct (precipitation_verbatim (conv := iso_converter) scenario_table _
              eq_refl "RR" [] eq_refl)
    as (src & d & c & Hs & Hd & Hc & Hout & Hnn).
  injection Hs as <-. injection Hd as <-. injection Hc as <-.
  eexists. split; [exact Hout |]. apply Hnn.
  repeat constructor. discriminate.
Defined.

(** ** C10: what enrichment leaves alone and what it overwrites *)

Lemma In_filter_cons {A} (p : A -> bool) (xs : list A) (x : A) :
  In x xs -> p x = true -> exists m rest, filter p xs = m :: rest.
Proof.
  intros Hin Hp.
  assert (H : In x (filter p xs)) by (apply filter_In; now split).
  destruct (filter p xs) as [| m rest]; [contradiction | now exists m, rest].
Qed.

Section Frame.

Context {conv : Converter}.

Lemma loaded_columns (raw out : DataFrame) :
  enrich raw = Ok out ->
  exists added, columns out = columns raw ++ added /\ incl added derived_names.
Proof.
  intros H. apply enrich_inv in H.
  destruct H as (src & d & df3 & df4 & Hs & Hd & H3 & H4 & ->).
  rewrite columns_take_rows.
  assert (Ha : assigns derived_names raw df4).
  { eapply assigns_trans;
      [apply assigns_incl with calendar_names; [| apply calendar_assigns] |].
    - intros x Hx. simpl in *. tauto.
    - eapply assigns_trans;
        [apply assigns_incl with temperature_names;
         [| eapply add_temperature_assigns; exact H3] |].
      + intros x Hx. simpl in *. tauto.
      + eapply copy_first_assigns; [| exact H4]. in_names. }
  apply Ha.
Qed.

(** C10.  The returned table has the raw columns first, in their order,
    then only columns with derived names.  A raw column whose name is not
    a derived name holds the same values as in the raw table, on the kept
    rows.  The six calendar columns hold what is computed from the
    converted dates, whatever a raw column of the same name held; a raw
    column named Temp_Mean, Temp_Max, Temp_Min or Precipitation is
    assigned the first column of its kind. *)
Theorem enrichment_frame (raw out : DataFrame) :
  load_data (Ok raw) = Loaded out ->
  exists src d,
    date_source raw = Ok src /\ to_datetime src = Ok d /\
    (exists added,
        columns out = columns raw ++ added /\ incl added derived_names) /\
    (forall k, ~ In k derived_names ->
               getitem out k = fmap (select (kept d)) (getitem raw k)) /\
    getitem out "Date" = Ok (select (kept d) (map date_cell d)) /\
    getitem out "Year" = Ok (select (kept d) (map (num_field ts_year) d)) /\
    getitem out "Month" = Ok (select (kept d) (map (num_field ts_month) d)) /\
    getitem out "Day" = Ok (select (kept d) (map (num_field ts_day) d)) /\
    getitem out "Month_Name" = Ok (select (kept d) (map strftime_B d)) /\
    getitem out "Season" =
      Ok (select (kept d)
                 (series_map season_dict (map (num_field ts_month) d))) /\
    (In "Temp_Mean" (columns raw) ->
     exists m rest c,
       filter is_mean_name (temp_cols raw) = m :: rest /\
       getitem raw m = Ok c /\
       getitem out "Temp_Mean" = Ok (select (kept d) c)) /\
    (In "Temp_Max" (columns raw) ->
     exists m rest c,
       filter is_max_name (temp_cols raw) = m :: rest /\
       getitem raw m = Ok c /\
       getitem out "Temp_Max" = Ok (select (kept d) c)) /\
    (In "Temp_Min" (columns raw) ->
     exists m rest c,
       filter is_min_name (temp_cols raw) = m :: rest /\
       getitem raw m = Ok c /\
       getitem out "Temp_Min" = Ok (select (kept d) c)) /\
    (In "Precipitation" (columns raw) ->
     exists p rest c,
       precip_cols raw = p :: rest /\
       getitem raw p = Ok c /\
       getitem out "Precipitation" = Ok (select (kept d) c)).
Proof.
  intros H. apply load_data_Loaded in H.
  destruct (loaded_dates raw out H) as (src & d & Hs & Hd).
  exists src, d.
  assert (Hcal : forall k, In k calendar_names ->
              getitem out k = fmap (select (kept d)) (getitem (calendar raw d) k))
    by (intros k Hk; exact (calendar_stored raw out src d k H Hs Hd Hk)).
  split; [exact Hs |]. split; [exact Hd |].
  split; [exact (loaded_columns raw out H) |].
  split; [intros k Hk; exact (untouched_stored raw out src d k H Hs Hd Hk) |].
  split; [exact (date_stored raw out src d H Hs Hd) |].
  split; [rewrite Hcal by in_names; now rewrite calendar_Year |].
  split; [rewrite Hcal by in_names; now rewrite calendar_Month |].
  split; [rewrite Hcal by in_names; now rewrite calendar_Day |].
  split; [rewrite Hcal by in_names; now rewrite calendar_Month_Name |].
  split; [rewrite Hcal by in_names; now rewrite calendar_Season |].
  assert (Htemp : forall k, In k (columns raw) -> is_temp_name k = true ->
                            In k (temp_cols raw))
    by (intros k Hin Hk; apply filter_In; now split).
  split; [| split; [| split]].
  - intros Hin.
    destruct (In_filter_cons is_mean_name (temp_cols raw) "Temp_Mean"
                (Htemp _ Hin eq_refl) eq_refl) as (m & rest & Em).
    destruct (temp_mean_stored raw out H) as (src' & d' & v & Hs' & Hd' & Hg & Hv).
    + intros E. rewrite E in Em. discriminate Em.
    + rewrite Hs in Hs'. injection Hs' as <-.
      rewrite Hd in Hd'. injection Hd' as <-.
      rewrite Em in Hv. now exists m, rest, v.
  - intros Hin.
    destruct (In_filter_cons is_max_name (temp_cols raw) "Temp_Max"
                (Htemp _ Hin eq_refl) eq_refl) as (m & rest & Em).
    destruct (temp_max_stored raw out src d m rest H Hs Hd Em) as (c & Hc & Hg).
    now exists m, rest, c.
  - intros Hin.
    destruct (In_filter_cons is_min_name (temp_cols raw) "Temp_Min"
                (Htemp _ Hin eq_refl) eq_refl) as (m & rest & Em).
    destruct (temp_min_stored raw out src d m rest H Hs Hd Em) as (c & Hc & Hg).
    now exists m, rest, c.
  - intros Hin.
    destruct (In_filter_cons is_precip_name (columns raw) "Precipitation"
                Hin eq_refl) as (p & rest & Ep).
    destruct (precipitation_stored raw out src d p rest H Hs Hd Ep)
      as (c & Hc & Hg).
    now exists p, rest, c.
Qed.

End Frame.

Lemma enrichment_frame_witness :
  exists out,
    load_data (conv := iso_converter) (Ok dated_table) = Loaded out /\
    getitem out "Remark" = Ok [Str "dry"; NaN] /\
    getitem out "Year" = Ok [Num 2022; Num 2022].
Proof.
  eexists. split; [reflexivity |].
  destruct (enrichment_frame (conv := iso_converter) dated_table _ eq_refl)
    as (src & d & Hs & Hd & _ & Hraw & _ & Hyear & _).
  injection Hs as <-. injection Hd as <-. split.
  - rewrite Hraw; [reflexivity |]. simpl. intuition discriminate.
  - rewrite Hyear. reflexivity.
Defined.



(** * Further properties of [load_data] *)

(** ** Which columns the returned table has *)

Lemma In_getitem_Ok (df : DataFrame) (k : string) :
  In k (columns df) -> exists c, getitem df k = Ok c.
Proof.
  induction df as [| [n c'] df IH]; simpl; [contradiction |].
  destruct (String.eqb n k) eqn:E.
  - intros _. now exists c'.
  - intros [H | H]; [| now apply IH].
    subst n. now rewrite String.eqb_refl in E.
Qed.

Lemma In_columns_setitem (df : DataFrame) (t k : string) (v : column) :
  In k (columns (setitem df t v)) -> In k (columns df) \/ k = t.
Proof.
  rewrite columns_setitem. destruct (has_column df t); [now left |].
  rewrite in_app_iff. simpl. intuition.
Qed.

Lemma In_columns_copy_first (cols : list string) (t k : string)
      (df df' : DataFrame) :
  copy_first cols t df = Ok df' -> In k (columns df') ->
  In k (columns df) \/ (k = t /\ cols <> []).
Proof.
  intros H Hin. apply copy_first_inv in H.
  destruct H as [[_ ->] | (c & rest & v & -> & _ & ->)]; [now left |].
  apply In_columns_setitem in Hin. destruct Hin as [Hin | ->]; [now left |].
  right. split; [reflexivity | discriminate].
Qed.

Section Schema.

Context {conv : Converter}.

(** Where a column of the returned table comes from. *)
Lemma loaded_column_origin (raw out : DataFrame) (k : string) :
  enrich raw = Ok out -> In k (columns out) ->
  In k (columns raw) \/ In k calendar_names
  \/ (k = "Temp_Mean" /\ temp_cols raw <> [])
  \/ (k = "Temp_Max" /\ filter is_max_name (temp_cols raw) <> [])
  \/ (k = "Temp_Min" /\ filter is_min_name (temp_cols raw) <> [])
  \/ (k = "Precipitation" /\ precip_cols raw <> []).
Proof.
  intros H Hin. apply enrich_inv in H.
  destruct H as (src & d & df3 & df4 & Hs & Hd & H3 & H4 & ->).
  rewrite columns_take_rows in Hin.
  fold (temp_cols raw) in H3. fold (precip_cols raw) in H4.
  destruct (In_columns_copy_first _ _ _ _ _ H4 Hin) as [Hin3 | Hp];
    [| now repeat right].
  assert (Hcal : In k (columns (calendar raw d)) ->
                 In k (columns raw) \/ In k calendar_names)
    by apply (assigns_In_inv _ _ _ _ (calendar_assigns raw d)).
  unfold add_temperature in H3.
  destruct (temp_cols raw) as [| t0 tc] eqn:Etc.
  - injection H3 as <-. destruct (Hcal Hin3); tauto.
  - inv_bind H3. inv_bind H3.
    destruct (In_columns_copy_first _ _ _ _ _ H3 Hin3) as [Hin2 | Hmin];
      [| now do 4 right; left].
    destruct (In_columns_copy_first _ _ _ _ _ Hv0 Hin2) as [Hin1 | Hmax];
      [| now do 3 right; left].
    apply add_temp_mean_inv in Hv. destruct Hv as (m & -> & _).
    apply In_columns_setitem in Hin1. destruct Hin1 as [Hin1 | ->].
    + destruct (Hcal Hin1); tauto.
    + do 2 right. left. split; [reflexivity | discriminate].
Qed.

(** The returned table always has the six calendar columns; it has
    Temp_Mean exactly when the raw header has a temperature-like name,
    Temp_Max (Temp_Min) exactly when one of those names is max-like
    (min-like), and Precipitation exactly when the raw header has a
    precipitation-like name. *)
Theorem loaded_schema (raw out : DataFrame) :
  load_data (Ok raw) = Loaded out ->
  (forall k, In k calendar_names -> In k (columns out)) /\
  (In "Temp_Mean" (columns out) <-> temp_cols raw <> []) /\
  (In "Temp_Max" (columns out)
   <-> filter is_max_name (temp_cols raw) <> []) /\
  (In "Temp_Min" (columns out)
   <-> filter is_min_name (temp_cols raw) <> []) /\
  (In "Precipitation" (columns out) <-> precip_cols raw <> []).
Proof.
  intros H. apply load_data_Loaded in H.
  destruct (loaded_dates raw out H) as (src & d & Hs & Hd).
  assert (Horigin := loaded_column_origin raw out).
  assert (Htemp : forall k (p : string -> bool),
             In k (columns raw) -> is_temp_name k = true -> p k = true ->
             filter p (temp_cols raw) <> []).
  { intros k p Hin Ht Hp E.
    assert (Hf : In k (filter p (temp_cols raw))).
    { apply filter_In. split; [| exact Hp]. apply filter_In. now split. }
    now rewrite E in Hf. }
  split; [| split; [| split; [| split]]].
  - intros k Hk.
    pose proof (calendar_stored raw out src d k H Hs Hd Hk) as Hg.
    assert (Hc : exists c, getitem (calendar raw d) k = Ok c).
    { simpl in Hk.
      destruct Hk as [<- | [<- | [<- | [<- | [<- | [<- | []]]]]]];
        eexists;
        first [ apply calendar_Date | apply calendar_Year
              | apply calendar_Month | apply calendar_Day
              | apply calendar_Month_Name | apply calendar_Season ]. }
    destruct Hc as (c & Hc). rewrite Hc in Hg.
    now apply getitem_Ok_In in Hg.
  - split.
    + intros Hin E. now apply (temp_mean_absent raw out H E).
    + intros Hne.
      destruct (temp_mean_stored raw out H Hne) as (s' & d' & v & _ & _ & Hg & _).
      now apply getitem_Ok_In in Hg.
  - split.
    + intros Hin.
      destruct (Horigin "Temp_Max" H Hin)
        as [Hr | [Hc | [[E _] | [[_ Hm] | [[E _] | [E _]]]]]];
        try discriminate E; try exact Hm.
      * now apply (Htemp "Temp_Max").
      * simpl in Hc. intuition discriminate.
    + intros Hne. destruct (filter is_max_name (temp_cols raw)) as [| m rest] eqn:E;
        [contradiction |].
      destruct (temp_max_stored raw out src d m rest H Hs Hd E) as (c & _ & Hg).
      now apply getitem_Ok_In in Hg.
  - split.
    + intros Hin.
      destruct (Horigin "Temp_Min" H Hin)
        as [Hr | [Hc | [[E _] | [[E _] | [[_ Hm] | [E _]]]]]];
        try discriminate E; try exact Hm.
      * now apply (Htemp "Temp_Min").
      * simpl in Hc. intuition discriminate.
    + intros Hne. destruct (filter is_min_name (temp_cols raw)) as [| m rest] eqn:E;
        [contradiction |].
      destruct (temp_min_stored raw out src d m rest H Hs Hd E) as (c & _ & Hg).
      now apply getitem_Ok_In in Hg.
  - split.
    + intros Hin E. now apply (precipitation_absent raw out H E).
    + intros Hne. destruct (precip_cols raw) as [| p rest] eqn:E;
        [contradiction |].
      destruct (precipitation_stored raw out src d p rest H Hs Hd E)
        as (c & _ & Hg).
      now apply getitem_Ok_In in Hg.
Qed.

(** Temp_Max is, on the kept rows, the first temperature-like column whose
    name contains "max" or "tx"; Temp_Min the first whose name contains
    "min" or "tn".  Both are looked for among all temperature-like columns,
    whichever of them gave Temp_Mean. *)
Theorem temp_extremes_policy (raw out : DataFrame) :
  load_data (Ok raw) = Loaded out ->
  exists src d,
    date_source raw = Ok src /\ to_datetime src = Ok d /\
    (forall m rest,
        filter is_max_name (temp_cols raw) = m :: rest ->
        exists c, getitem raw m = Ok c /\
                  getitem out "Temp_Max" = Ok (select (kept d) c)) /\
    (forall m rest,
        filter is_min_name (temp_cols raw) = m :: rest ->
        exists c, getitem raw m = Ok c /\
                  getitem out "Temp_Min" = Ok (select (kept d) c)).
Proof.
  intros H. apply load_data_Loaded in H.
  destruct (loaded_dates raw out H) as (src & d & Hs & Hd).
  exists src, d. repeat split; try assumption.
  - intros m rest E. exact (temp_max_stored raw out src d m rest H Hs Hd E).
  - intros m rest E. exact (temp_min_stored raw out src d m rest H Hs Hd E).
Qed.

End Schema.

Lemma loaded_schema_witness :
  exists out,
    load_data (conv := iso_converter) (Ok tn_tx_table) = Loaded out /\
    In "Temp_Max" (columns out) /\ ~ In "Precipitation" (columns out).
Proof.
  eexists. split; [reflexivity |].
  destruct (loaded_schema (conv := iso_converter) tn_tx_table _ eq_refl)
    as (_ & _ & Hmax & _ & Hp).
  split.
  - apply Hmax. discriminate.
  - intros Hin. apply Hp in Hin. now apply Hin.
Defined.

Lemma temp_extremes_policy_witness :
  exists out,
    load_data (conv := iso_converter) (Ok tn_tx_table) = Loaded out /\
    getitem out "Temp_Max" = Ok [Num 11; NaN] /\
    getitem out "Temp_Min" = Ok [Num 2; Num 1].
Proof.
  eexists. split; [reflexivity |].
  destruct (temp_extremes_policy (conv := iso_converter) tn_tx_table _ eq_refl)
    as (src & d & Hs & Hd & Hmax & Hmin).
  injection Hs as <-. injection Hd as <-.
  destruct (Hmax "TX" [] eq_refl) as (cx & Hx & Hg).
  injection Hx as Ex. subst cx.
  destruct (Hmin "TN" [] eq_refl) as (cn & Hn & Hg').
  injection Hn as En. subst cn.
  split; [exact Hg | exact Hg'].
Defined.


(** ** The calendar columns, row by row *)

Lemma select_kept_map {A} (f : option Timestamp -> A) (g : Timestamp -> A)
      (d : list (option Timestamp)) :
  (forall t, f (Some t) = g t) ->
  select (kept d) (map f d) = map g (valid_dates d).
Proof.
  intros Hfg. induction d as [| [t |] d IH]; simpl; [reflexivity | | exact IH].
  now rewrite Hfg, IH.
Qed.

Lemma length_valid_dates (d : list (option Timestamp)) :
  length (valid_dates d) = kept_count (kept d).
Proof.
  unfold kept_count. induction d as [| [t |] d IH]; simpl; [reflexivity | |];
    now rewrite IH.
Qed.

Lemma Qeq_bool_inject_Z (a b : Z) :
  Qeq_bool (inject_Z a) (inject_Z b) = (a =? b)%Z.
Proof.
  apply eq_true_iff_eq.
  now rewrite Qeq_bool_iff, Z.eqb_eq, inject_Z_injective.
Qed.

Lemma season_dict_ranges (m : Z) :
  dict_get season_dict (inject_Z m) =
  if ((1 <=? m) && (m <=? 12))%Z then Str (season_of_month m) else NaN.
Proof.
  unfold season_dict. cbn [dict_get]. rewrite !Qeq_bool_inject_Z.
  repeat match goal with
         | |- context [Z.eqb m ?k] =>
             destruct (Z.eqb_spec m k) as [-> | ?]; [reflexivity |]
         end.
  destruct (Z.leb_spec 1 m); [| reflexivity].
  destruct (Z.leb_spec m 12); [lia | reflexivity].
Qed.

Section CalendarRows.

Context {conv : Converter}.

(** Every row of the returned table has a timestamp in Date, and its Year,
    Month, Day and Month_Name are the year, month, day and month name of
    that very timestamp: none of the five is missing in any returned row. *)
Theorem calendar_rows_agree (raw out : DataFrame) :
  load_data (Ok raw) = Loaded out ->
  exists ts : list Timestamp,
    getitem out "Date" = Ok (map Ts ts) /\
    getitem out "Year" = Ok (map (fun t => Num (inject_Z (ts_year t))) ts) /\
    getitem out "Month" = Ok (map (fun t => Num (inject_Z (ts_month t))) ts) /\
    getitem out "Day" = Ok (map (fun t => Num (inject_Z (ts_day t))) ts) /\
    getitem out "Month_Name"
    = Ok (map (fun t => Str (month_name (ts_month t))) ts).
Proof.
  intros H. apply load_data_Loaded in H.
  destruct (loaded_dates raw out H) as (src & d & Hs & Hd).
  exists (valid_dates d).
  assert (Hcal : forall k, In k calendar_names ->
              getitem out k = fmap (select (kept d)) (getitem (calendar raw d) k))
    by (intros k Hk; exact (calendar_stored raw out src d k H Hs Hd Hk)).
  repeat split.
  - rewrite Hcal, calendar_Date by in_names. simpl. f_equal.
    now apply select_kept_map.
  - rewrite Hcal, calendar_Year by in_names. simpl. f_equal.
    now apply select_kept_map.
  - rewrite Hcal, calendar_Month by in_names. simpl. f_equal.
    now apply select_kept_map.
  - rewrite Hcal, calendar_Day by in_names. simpl. f_equal.
    now apply select_kept_map.
  - rewrite Hcal, calendar_Month_Name by in_names. simpl. f_equal.
    now apply select_kept_map.
Qed.

(** The Season of a returned row is a function of the month of its date:
    "Winter" for December, January and February, "Spring" for March to
    May, "Summer" for June to August, "Fall" for September to November; it
    would be missing only for a month outside 1..12. *)
Theorem season_by_month (raw out : DataFrame) :
  load_data (Ok raw) = Loaded out ->
  exists ts : list Timestamp,
    getitem out "Date" = Ok (map Ts ts) /\
    getitem out "Season"
    = Ok (map (fun t =>
                 if ((1 <=? ts_month t) && (ts_month t <=? 12))%Z
                 then Str (season_of_month (ts_month t))
                 else NaN) ts).
Proof.
  intros H. apply load_data_Loaded in H.
  destruct (loaded_dates raw out H) as (src & d & Hs & Hd).
  exists (valid_dates d).
  assert (Hcal : forall k, In k calendar_names ->
              getitem out k = fmap (select (kept d)) (getitem (calendar raw d) k))
    by (intros k Hk; exact (calendar_stored raw out src d k H Hs Hd Hk)).
  split.
  - rewrite Hcal, calendar_Date by in_names. simpl. f_equal.
    now apply select_kept_map.
  - rewrite Hcal, calendar_Season by in_names. simpl. f_equal.
    unfold series_map. rewrite map_map. apply select_kept_map.
    intros t. simpl. apply season_dict_ranges.
Qed.

End CalendarRows.

Lemma calendar_rows_agree_witness :
  exists out ts,
    load_data (conv := iso_converter) (Ok tn_tx_table) = Loaded out /\
    getitem out "Date" = Ok (map Ts ts) /\
    getitem out "Day" = Ok (map (fun t => Num (inject_Z (ts_day t))) ts).
Proof.
  eexists.
  destruct (calendar_rows_agree (conv := iso_converter) tn_tx_table _ eq_refl)
    as (ts & Hdate & _ & _ & Hday & _).
  exists ts. split; [reflexivity |]. split; assumption.
Defined.

Lemma season_by_month_witness :
  exists out,
    load_data (conv := iso_converter) (Ok rain_table) = Loaded out /\
    getitem out "Season" = Ok [Str "Fall"; Str "Winter"].
Proof.
  eexists. split; [reflexivity |].
  destruct (season_by_month (conv := iso_converter) rain_table _ eq_refl)
    as (ts & Hdate & Hseason).
  assert (Hts : ts = [mkTimestamp 2019 11 30 0; mkTimestamp 2019 12 1 0]).
  { apply Ok_inj in Hdate. clear Hseason.
    destruct ts as [| t1 [| t2 [| t3 ts]]]; try discriminate Hdate.
    injection Hdate as E1 E2. now rewrite E1, E2. }
  rewrite Hseason, Hts. reflexivity.
Defined.

(** ** A table without missing dates *)

Lemma select_all_kept {A} (d : list (option Timestamp)) (xs : list A) :
  Forall (fun x => x <> None) d -> select (kept d) xs = firstn (length d) xs.
Proof.
  intros H. revert xs. induction H as [| [t |] d Hx H IH]; intros [| x xs];
    simpl; try reflexivity; try contradiction.
  now rewrite IH.
Qed.

Section NoMissingDate.

Context {conv : Converter}.

(** When every date of the table is converted to a timestamp, no row is
    removed: the returned table has all [n] rows and every untouched column
    is returned whole. *)
Theorem nothing_dropped (n : nat) (raw out : DataFrame) src d :
  rectangular n raw ->
  load_data (Ok raw) = Loaded out ->
  date_source raw = Ok src -> to_datetime src = Ok d ->
  Forall (fun x => x <> None) d ->
  (forall k c, ~ In k derived_names -> getitem raw k = Ok c ->
               getitem out k = Ok c) /\
  (forall k c, getitem out k = Ok c -> length c = n).
Proof.
  intros Hr H Hs Hd Hall. apply load_data_Loaded in H.
  assert (Hlen : length d = n).
  { rewrite (to_datetime_length _ _ Hd).
    exact (date_source_length n raw src Hr Hs). }
  split.
  - intros k c Hk Hc.
    rewrite (untouched_stored raw out src d k H Hs Hd Hk), Hc. simpl.
    rewrite (select_all_kept d c Hall), Hlen.
    rewrite <- (rectangular_getitem n raw k c Hr Hc). now rewrite firstn_all.
  - intros k c Hc. apply enrich_inv in H.
    destruct H as (src' & d' & df3 & df4 & Hs' & Hd' & H3 & H4 & ->).
    rewrite Hs in Hs'. injection Hs' as <-. rewrite Hd in Hd'. injection Hd' as <-.
    rewrite getitem_take_rows in Hc.
    destruct (getitem df4 k) as [c4 |] eqn:E4; [| discriminate Hc].
    simpl in Hc. apply Ok_inj in Hc. subst c.
    assert (Hr4 : rectangular n df4).
    { eapply copy_first_rectangular; [| exact H4].
      eapply add_temperature_rectangular; [| exact H3].
      now apply calendar_rectangular. }
    rewrite (select_all_kept d c4 Hall), Hlen, length_firstn.
    rewrite (rectangular_getitem n df4 k c4 Hr4 E4). apply Nat.min_id.
Qed.

End NoMissingDate.

Lemma nothing_dropped_witness :
  exists out,
    load_data (conv := iso_converter) (Ok tx_date_table) = Loaded out /\
    getitem out "TX" = Ok [Num 21; Num 23].
Proof.
  eexists. split; [reflexivity |].
  apply (nothing_dropped (conv := iso_converter) 2 tx_date_table _
           [Str "2020-05-05"; Str "2020-05-06"]
           [Some (mkTimestamp 2020 5 5 0); Some (mkTimestamp 2020 5 6 0)]).
  - repeat constructor.
  - reflexivity.
  - reflexivity.
  - reflexivity.
  - repeat constructor; discriminate.
  - simpl. intuition discriminate.
  - reflexivity.
Defined.


(** ** When [load_data] returns and when it stops *)

Lemma assigns_In (names : list string) (df df' : DataFrame) (k : string) :
  assigns names df df' -> In k (columns df) -> In k (columns df').
Proof.
  intros [_ (a & C & _)] H. rewrite C. apply in_or_app. now left.
Qed.

Lemma copy_first_total (cols : list string) (t : string) (df : DataFrame) :
  (forall c, In c cols -> In c (columns df)) ->
  exists df', copy_first cols t df = Ok df' /\
              (forall k, In k (columns df) -> In k (columns df')).
Proof.
  intros Hin. destruct cols as [| c rest]; simpl.
  - now exists df.
  - destruct (In_getitem_Ok df c (Hin c (or_introl eq_refl))) as (v & Hv).
    rewrite Hv. simpl. eexists. split; [reflexivity |].
    intros k Hk. apply (assigns_In [t] df); [| exact Hk].
    apply assigns_setitem. now left.
Qed.

Lemma cell_add_Raise x y e : cell_add x y = Raise e -> e = TypeError.
Proof.
  destruct x, y; cbn [cell_add]; intros H; try discriminate H;
    now injection H as <-.
Qed.

Lemma cell_truediv_Raise q x e : cell_truediv q x = Raise e -> e = TypeError.
Proof.
  destruct x; cbn [cell_truediv]; intros H; try discriminate H;
    now injection H as <-.
Qed.

Lemma series_add_Raise a :
  forall b e, length a = length b -> series_add a b = Raise e -> e = TypeError.
Proof.
  induction a as [| x a IH]; intros [| y b] e Hlen H; simpl in *;
    try discriminate.
  destruct (cell_add x y) as [z |] eqn:Ez; simpl in H.
  - destruct (series_add a b) as [zs |] eqn:Es; simpl in H; [discriminate |].
    injection H as <-. apply (IH b); [lia | exact Es].
  - injection H as <-. now apply cell_add_Raise in Ez.
Qed.

Lemma series_truediv_Raise s q e :
  series_truediv s q = Raise e -> e = TypeError.
Proof.
  unfold series_truediv. induction s as [| x s IH]; simpl; [discriminate |].
  destruct (cell_truediv q x) as [z |] eqn:Ez; simpl.
  - destruct (mapM (cell_truediv q) s) as [zs |]; simpl; [discriminate |].
    intros H. injection H as <-. now apply IH.
  - intros H. injection H as <-. now apply cell_truediv_Raise in Ez.
Qed.

Lemma series_number_or_missing a :
  forall b, length a = length b ->
            Forall number_or_missing a -> Forall number_or_missing b ->
            exists s avg, series_add a b = Ok s /\ series_truediv s 2 = Ok avg.
Proof.
  unfold series_truediv.
  induction a as [| x a IH]; intros [| y b] Hlen Ha Hb; simpl in Hlen;
    try discriminate.
  - now exists [], [].
  - pose proof (Forall_inv Ha) as Hx. pose proof (Forall_inv Hb) as Hy.
    apply Forall_inv_tail in Ha. apply Forall_inv_tail in Hb.
    destruct (IH b ltac:(lia) Ha Hb) as (s & avg & Hs & Havg).
    destruct x, y; try contradiction; cbn [series_add cell_add bind];
      rewrite Hs; cbn [bind]; eexists; eexists; (split; [reflexivity |]);
      cbn [mapM cell_truediv bind]; rewrite Havg; reflexivity.
Qed.

Lemma rowwise_nth (R : cell -> cell -> cell -> Prop) xs ys zs :
  rowwise R xs ys zs ->
  forall i x y, nth_error xs i = Some x -> nth_error ys i = Some y ->
                exists z, R x y z.
Proof.
  induction 1 as [| x0 y0 z0 xs ys zs Hr H IH]; intros i x y Hx Hy.
  - destruct i; discriminate Hx.
  - destruct i as [| i]; simpl in *.
    + injection Hx as <-. injection Hy as <-. now exists z0.
    + eapply IH; eassumption.
Qed.

Section Outcome.

Context {conv : Converter}.

Lemma add_temp_mean_total (raw : DataFrame) (d : list (option Timestamp)) :
  temp_cols raw <> [] -> mean_computable raw ->
  exists v, add_temp_mean (temp_cols raw) (calendar raw d)
            = Ok (setitem (calendar raw d) "Temp_Mean" v).
Proof.
  intros Hne Hmean. unfold add_temp_mean.
  assert (Hget : forall k, In k (temp_cols raw) ->
                 exists c, getitem (calendar raw d) k = Ok c).
  { intros k Hk. rewrite temp_column_raw by now apply (temp_cols_temp raw).
    apply In_getitem_Ok. unfold temp_cols in Hk. now apply filter_In in Hk. }
  destruct (filter is_mean_name (temp_cols raw)) as [| m rest] eqn:Em.
  - destruct (temp_cols raw) as [| a [| b tc]] eqn:Etc; [contradiction | |].
    + destruct (Hget a (or_introl eq_refl)) as (c & Hc).
      rewrite Hc. simpl. now exists c.
    + destruct (Hmean a b tc ltac:(now rewrite Etc) Etc)
        as (ca & cb & s & avg & Ha & Hb & Hs & Havg).
      rewrite !temp_column_raw, Ha, Hb
        by (apply (temp_cols_temp raw); rewrite Etc; simpl; tauto).
      simpl. rewrite Hs. simpl. rewrite Havg. simpl. now exists avg.
  - destruct (filter_In_true _ _ _ _ Em) as [Hin _].
    destruct (Hget m Hin) as (c & Hc). rewrite Hc. simpl. now exists c.
Qed.

Lemma enrich_succeeds (raw : DataFrame) src d :
  date_source raw = Ok src -> to_datetime src = Ok d ->
  mean_computable raw -> exists out, enrich raw = Ok out.
Proof.
  intros Hs Hd Hmean. rewrite enrich_eq, Hs. cbn [bind]. rewrite Hd. cbn [bind].
  fold (temp_cols raw) (precip_cols raw).
  assert (Hraw : forall k, In k (columns raw) ->
                           In k (columns (calendar raw d)))
    by (intros k; apply (assigns_In _ _ _ _ (calendar_assigns raw d))).
  assert (H3 : exists df3,
             add_temperature (temp_cols raw) (calendar raw d) = Ok df3 /\
             forall k, In k (columns raw) -> In k (columns df3)).
  { unfold add_temperature.
    destruct (temp_cols raw) as [| t0 tc] eqn:Etc; [now exists (calendar raw d) |].
    rewrite <- Etc.
    destruct (add_temp_mean_total raw d) as (v & Hv);
      [rewrite Etc; discriminate | exact Hmean |].
    rewrite Hv. cbn [bind].
    assert (H2 : forall k, In k (columns raw) ->
                 In k (columns (setitem (calendar raw d) "Temp_Mean" v))).
    { intros k Hk. apply (assigns_In ["Temp_Mean"] (calendar raw d));
        [apply assigns_setitem; now left | now apply Hraw]. }
    assert (Htc : forall p k, In k (filter p (temp_cols raw)) ->
                              In k (columns raw)).
    { intros p k Hk. apply filter_In in Hk. destruct Hk as [Hk _].
      unfold temp_cols in Hk. now apply filter_In in Hk. }
    destruct (copy_first_total (filter is_max_name (temp_cols raw)) "Temp_Max"
                (setitem (calendar raw d) "Temp_Mean" v))
      as (df2 & Hmax & Hin2);
      [intros c Hc; apply H2; now apply (Htc is_max_name) |].
    rewrite Hmax. cbn [bind].
    destruct (copy_first_total (filter is_min_name (temp_cols raw)) "Temp_Min" df2)
      as (df3 & Hmin & Hin3);
      [intros c Hc; apply Hin2, H2; now apply (Htc is_min_name) |].
    exists df3. split; [exact Hmin |].
    intros k Hk. now apply Hin3, Hin2, H2. }
  destruct H3 as (df3 & H3 & Hin3). rewrite H3. cbn [bind].
  destruct (copy_first_total (precip_cols raw) "Precipitation" df3)
    as (df4 & H4 & _).
  { intros c Hc. apply Hin3. unfold precip_cols in Hc.
    now apply filter_In in Hc. }
  rewrite H4. cbn [bind]. now eexists.
Qed.


(** A table of [n] rows whose dates convert is always returned when the
    first two temperature-like columns hold only numbers and missing
    values. *)
Theorem numeric_temperatures_load (n : nat) (raw : DataFrame) src d :
  rectangular n raw ->
  date_source raw = Ok src -> to_datetime src = Ok d ->
  (forall k c, In k (firstn 2 (temp_cols raw)) -> getitem raw k = Ok c ->
               Forall number_or_missing c) ->
  exists out, load_data (Ok raw) = Loaded out.
Proof.
  intros Hr Hs Hd Hnum.
  destruct (enrich_succeeds raw src d Hs Hd) as (out & H).
  - intros a b rest _ Etc.
    assert (Hcol : forall k, In k [a; b] -> exists c, getitem raw k = Ok c).
    { intros k Hk. apply In_getitem_Ok.
      assert (Hin : In k (temp_cols raw)) by (rewrite Etc; simpl in *; tauto).
      unfold temp_cols in Hin. now apply filter_In in Hin. }
    destruct (Hcol a ltac:(now left)) as (ca & Ha).
    destruct (Hcol b ltac:(right; now left)) as (cb & Hb).
    destruct (series_number_or_missing ca cb) as (s & avg & Hadd & Hdiv).
    + rewrite (rectangular_getitem n raw a ca Hr Ha).
      now rewrite (rectangular_getitem n raw b cb Hr Hb).
    + apply (Hnum a); [rewrite Etc; now left | exact Ha].
    + apply (Hnum b); [rewrite Etc; right; now left | exact Hb].
    + now exists ca, cb, s, avg.
  - exists out. now apply load_data_Loaded.
Qed.

(** When Temp_Mean is to be the average of two columns and some row holds
    text in both, the load stops with a [TypeError] reported by the generic
    handler, although the dates were converted: no table is returned. *)
Theorem text_temperatures_stop_load (n : nat) (raw : DataFrame) src d
        (a b : string) (rest : list string) (ca cb : column)
        (i : nat) (x y : string) :
  rectangular n raw ->
  date_source raw = Ok src -> to_datetime src = Ok d ->
  filter is_mean_name (temp_cols raw) = [] ->
  temp_cols raw = a :: b :: rest ->
  getitem raw a = Ok ca -> getitem raw b = Ok cb ->
  nth_error ca i = Some (Str x) -> nth_error cb i = Some (Str y) ->
  load_data (Ok raw) = Stopped (load_error TypeError).
Proof.
  intros Hr Hs Hd Em Etc Ha Hb Hx Hy.
  change (load_error TypeError) with (except TypeError).
  apply load_data_Stopped.
  rewrite enrich_eq, Hs. cbn [bind]. rewrite Hd. cbn [bind].
  fold (temp_cols raw). unfold add_temperature. rewrite Etc.
  unfold add_temp_mean. rewrite <- Etc, Em, Etc.
  rewrite !temp_column_raw, Ha, Hb
    by (apply (temp_cols_temp raw); rewrite Etc; simpl; tauto).
  cbn [bind].
  destruct (series_add ca cb) as [s | e] eqn:Es; cbn [bind].
  - destruct (series_truediv s 2) as [avg | e] eqn:Ediv; cbn [bind].
    + exfalso.
      destruct (rowwise_nth average_of ca cb avg
                  (series_average ca cb s avg Es Ediv) i _ _ Hx Hy)
        as (z & Hz).
      inversion Hz.
    + now rewrite (series_truediv_Raise s 2 e Ediv).
  - rewrite (series_add_Raise ca cb e); [reflexivity | | exact Es].
    rewrite (rectangular_getitem n raw a ca Hr Ha).
    now rewrite (rectangular_getitem n raw b cb Hr Hb).
Qed.

End Outcome.



Lemma numeric_temperatures_load_witness :
  rectangular 3 tn_tx_table /\
  exists out, load_data (conv := iso_converter) (Ok tn_tx_table) = Loaded out.
Proof.
  assert (Hr : rectangular 3 tn_tx_table) by (repeat constructor).
  split; [exact Hr |].
  apply (numeric_temperatures_load (conv := iso_converter) 3 tn_tx_table
           [Str "2021-03-01"; NaN; Str "2021-03-03"]
           [Some (mkTimestamp 2021 3 1 0); None; Some (mkTimestamp 2021 3 3 0)]
           Hr eq_refl eq_refl).
  intros k c [<- | [<- | []]] Hc; injection Hc as <-;
    repeat constructor.
Defined.

Lemma text_temperatures_stop_load_witness :
  rectangular 1 text_table /\
  load_data (conv := iso_converter) (Ok text_table)
  = Stopped (load_error TypeError).
Proof.
  assert (Hr : rectangular 1 text_table) by (repeat constructor).
  split; [exact Hr |].
  apply (text_temperatures_stop_load (conv := iso_converter) 1 text_table
           [Str "2020-01-01"] [Some (mkTimestamp 2020 1 1 0)]
           "TN" "TX" [] [Str "low"] [Str "high"] 0 "low" "high" Hr);
    reflexivity.
Defined.


(** * Further properties of the page script *)

Lemma assigns_has_column (names : list string) (df df' : DataFrame) (c : string) :
  assigns names df df' -> ~ In c names -> has_column df' c = has_column df c.
Proof.
  intros [_ (a & C & I)] Hc. apply eq_true_iff_eq. rewrite !has_column_In, C.
  rewrite in_app_iff. split; [| now left].
  intros [H | H]; [exact H | exfalso; apply Hc, I, H].
Qed.

Lemma mapM_period_of_total (y : column) :
  Forall is_number y -> exists p, mapM Pages.period_of y = Ok p.
Proof.
  induction 1 as [| c y Hc Hy (p & IH)]; simpl; [now exists [] |].
  destruct c; try contradiction. simpl. rewrite IH. simpl. now eexists.
Qed.

Lemma mapM_decade_of_total (y : column) :
  Forall is_number y -> exists p, mapM Pages.decade_of y = Ok p.
Proof.
  induction 1 as [| c y Hc Hy (p & IH)]; simpl; [now exists [] |].
  destruct c; try contradiction. simpl. rewrite IH. simpl. now eexists.
Qed.

Module PageRuns.

Import Pages.
Local Open Scope script_scope.

Section Triples.

(** The table the run started from: it has the calendar columns, and its
    Year holds numbers only. *)
Variable df0 : DataFrame.
Hypothesis df0_calendar : forall k, In k calendar_names -> In k (columns df0).
Hypothesis df0_year :
  exists y, getitem df0 "Year" = Ok y /\ Forall is_number y.

(** What is known of a state: columns that are present, globals that are
    bound.  The frame is [df0] up to assignments to Period and Decade. *)
Definition known (cols bnd : list string) (s : run_state) : Prop :=
  assigns page_columns df0 (frame s) /\
  incl cols (columns (frame s)) /\
  incl bnd (bound s).

(** From a state where [cols] and [bnd] are known, [m] completes, with a
    result satisfying [Q], in a state where [cols'] and [bnd'] are known. *)
Definition completes {A} (cols bnd : list string) (m : script A)
           (Q : A -> Prop) (cols' bnd' : list string) : Prop :=
  forall s, known cols bnd s ->
            exists a s', m s = (s', Ok a) /\ Q a /\ known cols' bnd' s'.

Lemma c_ret {A} cols bnd (a : A) :
  completes cols bnd (ret a) (fun x => x = a) cols bnd.
Proof. intros s Hs. now exists a, s. Qed.

Lemma c_bind {A B} cols bnd cols1 bnd1 cols2 bnd2
      (m : script A) (k : A -> script B) (Q : A -> Prop) (R : B -> Prop) :
  completes cols bnd m Q cols1 bnd1 ->
  (forall a, Q a -> completes cols1 bnd1 (k a) R cols2 bnd2) ->
  completes cols bnd (sbind m k) R cols2 bnd2.
Proof.
  intros Hm Hk s Hs. destruct (Hm s Hs) as (a & s1 & E & Ha & H1).
  destruct (Hk a Ha s1 H1) as (b & s2 & E2 & Hb & H2).
  exists b, s2. unfold sbind. rewrite E. now split.
Qed.

Lemma c_show cols bnd (e : event) :
  completes cols bnd (show e) (fun _ => True) cols bnd.
Proof. intros s Hs. eexists. eexists. split; [reflexivity |]. now split. Qed.

Lemma c_read cols bnd (k : string) :
  In k cols -> completes cols bnd (read k) (fun _ => True) cols bnd.
Proof.
  intros Hk s (Ha & Hc & Hb).
  destruct (In_getitem_Ok (frame s) k (Hc k Hk)) as (c & E).
  exists c. eexists. unfold read. rewrite E. split; [reflexivity |].
  split; [exact I |]. unfold known. simpl. auto.
Qed.

Lemma c_read_Year cols bnd :
  completes cols bnd (read "Year") (Forall is_number) cols bnd.
Proof.
  intros s (Ha & Hc & Hb). destruct df0_year as (y & Ey & Hy).
  exists y. eexists. unfold read. destruct Ha as [G Hcols].
  rewrite G, Ey by (simpl; intuition discriminate).
  split; [reflexivity |]. split; [exact Hy |]. unfold known, assigns. simpl. auto.
Qed.

Lemma c_write cols bnd (k : string) (v : column) :
  In k page_columns ->
  completes cols bnd (write k v) (fun _ => True) (k :: cols) bnd.
Proof.
  intros Hk s (Ha & Hc & Hb). eexists. eexists. split; [reflexivity |].
  split; [exact I |]. unfold known. simpl. split; [| split].
  - eapply assigns_trans; [exact Ha | now apply assigns_setitem].
  - intros x [<- | Hx].
    + eapply getitem_Ok_In. apply getitem_setitem_eq.
    + apply (assigns_In [k] (frame s));
        [apply assigns_setitem; now left | now apply Hc].
  - exact Hb.
Qed.

Lemma c_test cols bnd (c : string) :
  ~ In c page_columns ->
  completes cols bnd (in_columns c) (fun b => b = has_column df0 c) cols bnd.
Proof.
  intros Hc s Hs. eexists. eexists. split; [reflexivity |].
  split; [| exact Hs]. destruct Hs as (Ha & _). now apply assigns_has_column with page_columns.
Qed.

Lemma c_assign cols bnd (x : string) :
  completes cols bnd (assign x) (fun _ => True) cols (x :: bnd).
Proof.
  intros s (Ha & Hc & Hb). eexists. eexists. split; [reflexivity |].
  split; [exact I |]. unfold known. simpl. split; [exact Ha |].
  split; [exact Hc |].
  intros y [<- | Hy]; [now left | right; now apply Hb].
Qed.

Lemma c_name cols bnd (x : string) :
  In x bnd -> completes cols bnd (name x) (fun _ => True) cols bnd.
Proof.
  intros Hx s (Ha & Hc & Hb). exists tt, s. unfold name.
  replace (existsb (String.eqb x) (bound s)) with true.
  - split; [reflexivity |]. split; [exact I |]. unfold known. auto.
  - symmetry. apply existsb_exists. exists x.
    split; [now apply Hb | apply String.eqb_refl].
Qed.

Lemma c_period cols bnd (y : column) :
  Forall is_number y ->
  completes cols bnd (lift (mapM period_of y)) (fun _ => True) cols bnd.
Proof.
  intros Hy s Hs. destruct (mapM_period_of_total y Hy) as (p & E).
  exists p, s. unfold lift. rewrite E. split; [reflexivity |]. now split.
Qed.

Lemma c_decade cols bnd (y : column) :
  Forall is_number y ->
  completes cols bnd (lift (mapM decade_of y)) (fun _ => True) cols bnd.
Proof.
  intros Hy s Hs. destruct (mapM_decade_of_total y Hy) as (p & E).
  exists p, s. unfold lift. rewrite E. split; [reflexivity |]. now split.
Qed.

Lemma c_for_each {A} cols bnd (xs : list A) (body : A -> script unit)
      (Q : unit -> Prop) :
  (forall x, completes cols bnd (body x) Q cols bnd) ->
  completes cols bnd (for_each xs body) (fun _ => True) cols bnd.
Proof.
  intros Hb. induction xs as [| x xs IH]; simpl.
  - intros s Hs. now exists tt, s.
  - eapply c_bind; [apply Hb | intros _ _; exact IH].
Qed.

Lemma c_weaken {A} cols bnd cols1 bnd1 cols2 bnd2 (m : script A)
      (Q Q' : A -> Prop) :
  completes cols bnd m Q cols1 bnd1 ->
  incl cols2 cols1 -> incl bnd2 bnd1 -> (forall a, Q a -> Q' a) ->
  completes cols bnd m Q' cols2 bnd2.
Proof.
  intros Hm Hc Hb HQ s Hs. destruct (Hm s Hs) as (a & s' & E & Ha & H1 & H2 & H3).
  exists a, s'. split; [exact E |]. split; [now apply HQ |].
  split; [exact H1 |]. split.
  - intros x Hx. now apply H2, Hc.
  - intros x Hx. now apply H3, Hb.
Qed.

(** The columns known to be in the table at the start of a run. *)
Definition initial_columns (bT bP : bool) : list string :=
  calendar_names ++ (if bT then ["Temp_Mean"] else [])
                 ++ (if bP then ["Precipitation"] else []).

Ltac c_atom :=
  first [ eapply c_show
        | eapply c_read_Year
        | eapply c_read; simpl; tauto
        | eapply c_write; simpl; tauto
        | eapply c_test; simpl; intuition discriminate
        | eapply c_assign
        | eapply c_name; simpl; tauto
        | eapply c_period; assumption
        | eapply c_decade; assumption
        | eapply c_for_each; intros ?
        | eapply c_ret ].

Ltac c_step HT HP :=
  cbv beta in *; subst; rewrite ?HT, ?HP; cbn [when];
  first [ c_atom | eapply c_bind; [| intros ? ?] ].

Ltac c_page HT HP :=
  eapply c_weaken;
  [ repeat c_step HT HP
  | intros ? ?; simpl in *; tauto
  | intros ? []
  | trivial ].

Lemma the_problem_completes cols :
  completes cols [] the_problem (fun _ => True) cols [].
Proof.
  unfold the_problem.
  eapply c_weaken;
    [ eapply c_bind; [eapply c_show | intros ? ?; eapply c_show]
    | apply incl_refl | apply incl_refl | trivial ].
Qed.

Lemma conclusion_completes cols :
  completes cols [] conclusion (fun _ => True) cols [].
Proof.
  unfold conclusion.
  eapply c_weaken;
    [ eapply c_bind; [eapply c_show | intros ? ?; eapply c_show]
    | apply incl_refl | apply incl_refl | trivial ].
Qed.

Lemma analysis_completes (bP : bool) :
  has_column df0 "Temp_Mean" = true ->
  has_column df0 "Precipitation" = bP ->
  completes (initial_columns true bP) [] analysis (fun _ => True)
            (initial_columns true bP) [].
Proof.
  intros HT HP. unfold analysis. destruct bP; c_page HT HP.
Qed.

Lemma insights_completes (w : widgets) (bT bP : bool) :
  has_column df0 "Temp_Mean" = bT ->
  has_column df0 "Precipitation" = bP ->
  completes (initial_columns bT bP) [] (insights w) (fun _ => True)
            (initial_columns bT bP) [].
Proof.
  intros HT HP. unfold insights, selected_var.
  destruct (var_choice w), bT, bP; c_page HT HP.
Qed.

Lemma dashboard_completes (w : widgets) (bT bP : bool) :
  has_column df0 "Temp_Mean" = bT ->
  has_column df0 "Precipitation" = bP ->
  (page_choice w = analysis_page -> bT = true) ->
  completes (initial_columns bT bP) [] (dashboard w) (fun _ => True)
            (initial_columns bT bP) [].
Proof.
  intros HT HP Hpage. unfold dashboard, page.
  destruct (page_choice w); simpl.
  - eapply c_bind; [apply the_problem_completes | intros ? _].
    eapply c_bind; [apply c_ret | intros ? _].
    eapply c_weaken; [apply c_ret | apply incl_refl | apply incl_refl | trivial].
  - rewrite (Hpage eq_refl) in *.
    eapply c_bind; [now apply analysis_completes | intros ? _].
    eapply c_bind; [apply c_ret | intros ? _].
    eapply c_weaken; [apply c_ret | apply incl_refl | apply incl_refl | trivial].
  - eapply c_bind; [apply c_ret | intros ? _].
    eapply c_bind; [now apply insights_completes | intros ? _].
    eapply c_weaken; [apply c_ret | apply incl_refl | apply incl_refl | trivial].
  - eapply c_bind; [apply c_ret | intros ? _].
    eapply c_bind; [apply c_ret | intros ? _].
    apply conclusion_completes.
Qed.

End Triples.

End PageRuns.


(** ** Runs of the pages on a returned table *)

Section LoadedTable.

Context {conv : Converter}.

Lemma loaded_calendar_columns (raw out : DataFrame) (k : string) :
  enrich raw = Ok out -> In k calendar_names -> In k (columns out).
Proof.
  intros H Hk. destruct (loaded_dates raw out H) as (src & d & Hs & Hd).
  pose proof (calendar_stored raw out src d k H Hs Hd Hk) as Hg.
  assert (Hc : exists c, getitem (calendar raw d) k = Ok c).
  { simpl in Hk.
    destruct Hk as [<- | [<- | [<- | [<- | [<- | [<- | []]]]]]];
      eexists;
      first [ apply calendar_Date | apply calendar_Year
            | apply calendar_Month | apply calendar_Day
            | apply calendar_Month_Name | apply calendar_Season ]. }
  destruct Hc as (c & Hc). rewrite Hc in Hg.
  now apply getitem_Ok_In in Hg.
Qed.

Lemma loaded_year_numbers (raw out : DataFrame) :
  enrich raw = Ok out ->
  exists y, getitem out "Year" = Ok y /\ Forall is_number y.
Proof.
  intros H. destruct (loaded_dates raw out H) as (src & d & Hs & Hd).
  eexists. split.
  - rewrite (calendar_stored raw out src d "Year" H Hs Hd) by in_names.
    rewrite calendar_Year. simpl.
    rewrite (select_kept_map _ (fun t => Num (inject_Z (ts_year t))));
      reflexivity.
  - apply Forall_map, Forall_forall. intros t _. exact I.
Qed.


End LoadedTable.

Module PageOutcomes.

Import Pages.

Lemma run_analysis_unbound (df : DataFrame) (w : widgets) :
  has_column df "Temp_Mean" = false -> page_choice w = analysis_page ->
  run df w =
  (mkState df [] [] [markdown "# 2. ANALYSIS: Long-term Climate Trends</p>"],
   Raise (NameError "temp_change")).
Proof.
  intros Hc Hpage. unfold run, dashboard, page. rewrite Hpage.
  cbn [page_label].
  change (String.eqb "2. ANALYSIS" "1. THE PROBLEM") with false.
  change (String.eqb "2. ANALYSIS" "2. ANALYSIS") with true.
  cbv iota. unfold sbind at 1.
  now rewrite (PageProperties.analysis_unbound df Hc).
Qed.

Lemma run_completes (df : DataFrame) (w : widgets) :
  (forall k, In k calendar_names -> In k (columns df)) ->
  (exists y, getitem df "Year" = Ok y /\ Forall is_number y) ->
  (page_choice w = analysis_page -> has_column df "Temp_Mean" = true) ->
  exists s', run df w = (s', Ok tt) /\ assigns page_columns df (frame s').
Proof.
  intros Hcal Hyear Hpage.
  destruct (PageRuns.dashboard_completes df Hyear w
              (has_column df "Temp_Mean") (has_column df "Precipitation")
              eq_refl eq_refl Hpage (mkState df [] [] []))
    as ([] & s' & E & _ & Ha & _).
  - split; [apply assigns_refl |]. split; [| intros x []].
    intros k Hk. unfold PageRuns.initial_columns in Hk. simpl.
    rewrite !in_app_iff in Hk. destruct Hk as [Hk | [Hk | Hk]].
    + now apply Hcal.
    + destruct (has_column df "Temp_Mean") eqn:E; [| contradiction].
      destruct Hk as [<- | []]. now apply has_column_In.
    + destruct (has_column df "Precipitation") eqn:E; [| contradiction].
      destruct Hk as [<- | []]. now apply has_column_In.
  - now exists s'.
Qed.


(** No run of a page changes the table it was given, except that it may
    add the columns Period and Decade after the others: every other column
    of the table is, at the end of the run, where it was and holds what it
    held, whether the run ends or fails. *)
Theorem pages_keep_table {conv : Converter} (raw out : DataFrame) (w : widgets) :
  load_data (Ok raw) = Loaded out ->
  (forall k, k <> "Period" -> k <> "Decade" ->
             getitem (frame (fst (run out w))) k = getitem out k) /\
  (exists added,
      columns (frame (fst (run out w))) = columns out ++ added /\
      incl added ["Period"; "Decade"]).
Proof.
  intros H. apply load_data_Loaded in H.
  assert (Ha : assigns page_columns out (frame (fst (run out w)))).
  { destruct (has_column out "Temp_Mean") eqn:ET.
    - destruct (run_completes out w) as (s' & E & Ha).
      + intros k. apply (loaded_calendar_columns raw out k H).
      + exact (loaded_year_numbers raw out H).
      + intros _. exact ET.
      + now rewrite E.
    - destruct (page_choice w) eqn:Ep.
      2: { rewrite (run_analysis_unbound out w ET Ep). apply assigns_refl. }
      all: destruct (run_completes out w) as (s' & E & Ha);
        [ intros k; apply (loaded_calendar_columns raw out k H)
        | exact (loaded_year_numbers raw out H)
        | rewrite Ep; discriminate
        | now rewrite E ]. }
  destruct Ha as [G Hcols]. split; [| exact Hcols].
  intros k H1 H2. apply G. simpl. intuition congruence.
Qed.


Lemma pages_keep_table_witness :
  exists out,
    load_data (conv := iso_converter) (Ok tn_tx_table) = Loaded out /\
    getitem (frame (fst (run out (mkWidgets analysis_page Temperature Winter))))
            "TX"
    = getitem out "TX".
Proof.
  eexists. split; [reflexivity |].
  apply (pages_keep_table (conv := iso_converter) tn_tx_table _
           (mkWidgets analysis_page Temperature Winter) eq_refl);
    discriminate.
Defined.

End PageOutcomes.


(** * Further properties of the cache *)

Section Session.

Context {conv : Converter}.

Lemma length_session (files : list (result DataFrame)) :
  forall c, length (session files c) = length files.
Proof.
  induction files as [| csv rest IH]; intros c; simpl; [reflexivity |].
  now rewrite IH.
Qed.

Lemma session_served (files : list (result DataFrame)) (c : cache)
      (df : DataFrame) :
  stored c = Some df ->
  forall j, (j < length files)%nat ->
            nth_error (session files c) j = Some (Loaded df).
Proof.
  intros Hc. induction files as [| csv rest IH]; intros j Hj; simpl in Hj;
    [lia |].
  cbn [session]. unfold cached_load_data. rewrite Hc. cbn [fst snd].
  destruct j as [| j]; [reflexivity |]. apply IH. lia.
Qed.

Lemma session_fresh (files : list (result DataFrame)) :
  forall c, stored c = None ->
  (forall i df,
      nth_error (session files c) i = Some (Loaded df) ->
      forall j, (i <= j)%nat -> (j < length files)%nat ->
                nth_error (session files c) j = Some (Loaded df)) /\
  (forall i,
      (forall k, (k < i)%nat ->
                 exists h, nth_error (session files c) k = Some (Stopped h)) ->
      nth_error (session files c) i = option_map load_data (nth_error files i)).
Proof.
  induction files as [| csv rest IH]; intros c Hc.
  - split.
    + intros i df H. destruct i; discriminate H.
    + intros i _. now destruct i.
  - cbn [session]. unfold cached_load_data. rewrite Hc.
    destruct (load_data csv) as [df0 | h0] eqn:E; cbn [fst snd].
    + split.
      * intros i df H j Hij Hj. destruct i as [| i].
        -- injection H as <-. destruct j as [| j]; [reflexivity |].
           simpl in Hj. apply session_served; [reflexivity | lia].
        -- simpl in H. destruct j as [| j]; [lia |]. simpl in Hj.
           assert (Hi : (i < length rest)%nat).
           { rewrite <- (length_session rest (mkCache (Some df0) (S (runs c)))).
             apply nth_error_Some. congruence. }
           rewrite (session_served rest (mkCache (Some df0) (S (runs c))) df0
                      eq_refl i Hi) in H.
           injection H as <-. apply session_served; [reflexivity | lia].
      * intros i Hprev. destruct i as [| i]; [now rewrite <- E |].
        destruct (Hprev 0%nat ltac:(lia)) as (h & Hh). discriminate Hh.
    + destruct (IH (mkCache None (S (runs c))) eq_refl) as [IH1 IH2]. split.
      * intros i df H j Hij Hj. destruct i as [| i]; [discriminate H |].
        destruct j as [| j]; [lia |]. simpl in *.
        apply (IH1 i df H j); lia.
      * intros i Hprev. destruct i as [| i]; [now rewrite <- E |].
        simpl. apply IH2. intros k Hk. apply (Hprev (S k)). lia.
Qed.

(** Within a session, every call reads the file anew as long as the calls
    before it stopped; from the first call that returns a table on, every
    call returns that same table, whatever has become of the file. *)
Theorem cache_serves_first_table (files : list (result DataFrame)) :
  (forall i df,
      nth_error (session files empty_cache) i = Some (Loaded df) ->
      forall j, (i <= j)%nat -> (j < length files)%nat ->
                nth_error (session files empty_cache) j = Some (Loaded df)) /\
  (forall i,
      (forall k, (k < i)%nat ->
                 exists h, nth_error (session files empty_cache) k
                           = Some (Stopped h)) ->
      nth_error (session files empty_cache) i
      = option_map load_data (nth_error files i)).
Proof. apply session_fresh. reflexivity. Qed.

End Session.

Lemma cache_serves_first_table_witness :
  session (conv := iso_converter)
          [Raise FileNotFoundError; Ok scenario_table; Ok text_table]
          empty_cache
  = [Stopped file_not_found; Loaded scenario_result; Loaded scenario_result] /\
  nth_error (session (conv := iso_converter)
                     [Raise FileNotFoundError; Ok scenario_table; Ok text_table]
                     empty_cache) 2
  = Some (Loaded scenario_result).
Proof.
  split; [reflexivity |].
  apply (proj1 (cache_serves_first_table (conv := iso_converter)
                  [Raise FileNotFoundError; Ok scenario_table; Ok text_table])
               1%nat scenario_result eq_refl 2%nat); simpl; lia.
Defined.


(** * Further properties of the name tests *)



